(* ===================================================================== *)
(* Brave web-search connector (semantic_kernel/connectors/brave.py):      *)
(* a shallow embedding of the request builder, the filter assembler, the  *)
(* transport wrapper and the response mapper, with the properties of the  *)
(* connector's specification proved about them.                           *)
(* ===================================================================== *)

From Stdlib Require Import ZArith Lia Ascii String.
From stdpp Require Import gmap strings list fin_maps pretty.

#[local] Set Warnings "-register-all".
Local Open Scope string_scope.
Local Open Scope list_scope.
Local Open Scope Z_scope.

(* --------------------------------------------------------------------- *)
(* Python values and exceptions                                           *)
(* --------------------------------------------------------------------- *)

(** The exception classes the connector raises or catches.  [RequestError]
    stands for httpx's class and all its subclasses (connection errors,
    timeouts), [OtherException] for any other subclass of Python's
    [Exception] (SyntaxError, ValueError, pydantic's ValidationError, ...).
    Interrupts that derive from BaseException only are not exceptions in
    this sense and are outside the model. *)
Inductive exn_class : Type :=
| ServiceInvalidRequestError
| HTTPStatusError
| RequestError
| OtherException (name : string).

(** An exception instance: its class, its message and its [__cause__]
    (set by [raise ... from ex]). *)
Inductive exception : Type :=
| MkException (cls : exn_class) (msg : string) (cause : option exception).

Definition exc_class (e : exception) : exn_class :=
  match e with MkException c _ _ => c end.
Definition exc_msg (e : exception) : string :=
  match e with MkException _ m _ => m end.
Definition exc_cause (e : exception) : option exception :=
  match e with MkException _ _ c => c end.

(** The outcome of a call that may raise. *)
Inductive result (A : Type) : Type :=
| Ok (a : A)
| Raise (e : exception).
Arguments Ok {A} a.
Arguments Raise {A} e.

(** A value of type [Any] as the decoded response carries it. *)
Inductive pyval : Type :=
| PyNone
| PyBool (b : bool)
| PyInt (z : Z)
| PyStr (s : string).

(** Truthiness of a value. *)
Definition truthy (x : pyval) : bool :=
  match x with
  | PyNone => false
  | PyBool b => b
  | PyInt z => negb (z =? 0)
  | PyStr EmptyString => false
  | PyStr (String _ _) => true
  end.

(** Python's [a or b]: the first operand when it is truthy, else the
    second. *)
Definition py_or (a b : pyval) : pyval :=
  if truthy a then a else b.

(** A [str | None] field as a value. *)
Definition of_opt (x : option string) : pyval :=
  match x with
  | Some s => PyStr s
  | None => PyNone
  end.

(* --------------------------------------------------------------------- *)
(* Constants                                                              *)
(* --------------------------------------------------------------------- *)

Definition DEFAULT_URL : string :=
  "https://api.search.brave.com/res/v1/web/search".

Definition QUERY_PARAMETERS : list string :=
  [ "country"; "search_lang"; "ui_lang"; "safesearch"; "text_decorations";
    "spellcheck"; "result_filter"; "units" ].

(* --------------------------------------------------------------------- *)
(* Response model                                                         *)
(* --------------------------------------------------------------------- *)

Module BraveWebPage.
Record t : Type := Build {
  type : option string;
  title : option string;
  url : option string;
  thumbnail : option (gmap string (string + bool));
  description : option string;
  age : option string;
  language : option string;
  family_friendly : option bool;
  extra_snippets : option (list string);
  meta_ur : option (gmap string string);
  source : option string
}.

(** The record with every field at its default, [None]. *)
Definition default : t :=
  Build None None None None None None None None None None None.
End BraveWebPage.

Module BraveWebPages.
Record t : Type := Build {
  type : option string;
  family_friendly : option bool;
  results : list BraveWebPage.t
}.

Definition default : t := Build (Some "webpage") None [].
End BraveWebPages.

Module BraveSearchResponse.
Record t : Type := Build {
  type : string;
  query_context : gmap string pyval;
  web_pages : option BraveWebPages.t
}.

Definition default : t := Build "search" ∅ None.
End BraveSearchResponse.

(** Modelled from the spec: the structured record of
    [semantic_kernel/data/text_search.py], which is not among the sources
    at hand.  Section 4.4: structured {name, value, link} records, built from
    title, description and url. *)
Module TextSearchResult.
Record t : Type := Build {
  name : option string;
  value : option string;
  link : option string
}.
End TextSearchResult.

(* --------------------------------------------------------------------- *)
(* Search options and filters                                             *)
(* --------------------------------------------------------------------- *)

(** A callable given as a filter; the only thing the connector does with
    it is to ask for its source text, so it is identified by a name. *)
Record callable : Type := Callable { callable_name : string }.

(** One predicate expression: [Callable | str]. *)
Inductive filter_expr : Type :=
| FStr (s : string)
| FCallable (c : callable).

(** [OptionalOneOrList[Callable | str]]. *)
Inductive filter_input : Type :=
| FilterNone
| FilterOne (f : filter_expr)
| FilterList (fs : list filter_expr).

(** Modelled from the spec: the options type of
    [semantic_kernel/data/text_search.py], which is not among the sources
    at hand.  Section 3: { top: integer, skip: integer, includeTotalCount:
    boolean, filter: zero, one, or an ordered sequence of predicate
    expressions }.  Python integers are unbounded, hence [Z]. *)
Module SearchOptions.
Record t : Type := Build {
  filter : filter_input;
  skip : Z;
  top : Z;
  include_total_count : bool
}.
End SearchOptions.

(** [not options.filter]: None, the empty string and the empty list are
    falsy; a callable, a non-empty string and a non-empty list are truthy. *)
Definition filter_falsy (f : filter_input) : bool :=
  match f with
  | FilterNone => true
  | FilterOne (FStr s) => negb (truthy (PyStr s))
  | FilterOne (FCallable _) => false
  | FilterList [] => true
  | FilterList (_ :: _) => false
  end.

(* --------------------------------------------------------------------- *)
(* Response mapper                                                        *)
(* --------------------------------------------------------------------- *)

(** The async generators are modelled by the list of the values they
    yield, in order. *)

Definition _get_result_strings (response : BraveSearchResponse.t)
  : list pyval :=
  match BraveSearchResponse.web_pages response with
  | None => []
  | Some web_pages =>
      map (fun web_page =>
             py_or (of_opt (BraveWebPage.description web_page)) (PyStr ""))
          (BraveWebPages.results web_pages)
  end.

Definition _get_text_search_results (response : BraveSearchResponse.t)
  : list TextSearchResult.t :=
  match BraveSearchResponse.web_pages response with
  | None => []
  | Some web_pages =>
      map (fun web_page =>
             TextSearchResult.Build (BraveWebPage.title web_page)
                                    (BraveWebPage.description web_page)
                                    (BraveWebPage.url web_page))
          (BraveWebPages.results web_pages)
  end.

Definition _get_brave_web_pages (response : BraveSearchResponse.t)
  : list BraveWebPage.t :=
  match BraveSearchResponse.web_pages response with
  | None => []
  | Some web_pages => BraveWebPages.results web_pages
  end.

(** [d.get(key)] and [d.get(key, default)]. *)
Definition dict_get (d : gmap string pyval) (key : string) (default : pyval)
  : pyval :=
  match d !! key with
  | Some v => v
  | None => default
  end.

Definition _get_metadata (response : BraveSearchResponse.t)
  : gmap string pyval :=
  let qc := BraveSearchResponse.query_context response in
  <["country" := dict_get qc "country" PyNone]>
  (<["show_strict_warning" := dict_get qc "show_strict_warning" PyNone]>
  (<["spellcheck_off" := dict_get qc "spellcheck_off" PyNone]>
  (<["altered" := dict_get qc "altered" (PyStr "")]>
  (<["original" := dict_get qc "original" PyNone]> ∅)))).

Definition _get_total_count (response : BraveSearchResponse.t)
    (options : SearchOptions.t) : option Z :=
  if SearchOptions.include_total_count options then
    match BraveSearchResponse.web_pages response with
    | Some web_pages =>
        Some (Z.of_nat (length (BraveWebPages.results web_pages)))
    | None => None
    end
  else None.

(* --------------------------------------------------------------------- *)
(* Options validation                                                     *)
(* --------------------------------------------------------------------- *)

Definition _validate_options (options : SearchOptions.t) : result unit :=
  if SearchOptions.top options <=? 0 then
    Raise (MkException ServiceInvalidRequestError
             "count value must be greater than 0." None)
  else if SearchOptions.top options >=? 21 then
    Raise (MkException ServiceInvalidRequestError
             "count value must be less than 21." None)
  else if SearchOptions.skip options <? 0 then
    Raise (MkException ServiceInvalidRequestError
             "offset must be greater than or equal to 0." None)
  else if SearchOptions.skip options >? 9 then
    Raise (MkException ServiceInvalidRequestError
             "offset must be less than 10." None)
  else Ok tt.

Definition _get_url : string := DEFAULT_URL.

(* --------------------------------------------------------------------- *)
(* Effects: log records, calls to collaborators, exceptions               *)
(* --------------------------------------------------------------------- *)

Inductive level : Type := INFO | WARNING | ERROR.

(** One constructor per logging call of the module; the arguments are the
    values its f-string interpolates. *)
Inductive log_record : Type :=
| ReceivedRequest (num_results offset : Z)
| SendingGetRequest (url : string)
| FailedToParseFilter (f : filter_expr) (exc : exception)
| FailedToGetResults (ex : exception)
| ClientErrorOccurred (ex : exception)
| UnexpectedErrorOccurred (ex : exception).

(** What a call does that an observer can see, in order: the records it
    logs, the filter expressions it hands to the parser and the requests it
    hands to the HTTP client. *)
Inductive event : Type :=
| EvLog (lvl : level) (r : log_record)
| EvParseFilter (f : filter_expr)
| EvHttpGet (timeout : Z) (url : string) (headers : gmap string string)
            (params : gmap string pyval).

(** A computation that logs, calls out and may raise: the events it
    produced and how it ended. *)
Definition M (A : Type) : Type := list event * result A.

Definition trace {A} (m : M A) : list event := fst m.
Definition outcome {A} (m : M A) : result A := snd m.

#[export] Instance M_ret : MRet M := fun A a => ([], Ok a).

#[export] Instance M_bind : MBind M := fun A B f m =>
  match m with
  | (t, Ok a) => let '(t', r) := f a in (t ++ t', r)
  | (t, Raise e) => (t, Raise e)
  end.

Definition emit (ev : event) : M unit := ([ev], Ok tt).

Definition raise {A} (e : exception) : M A := ([], Raise e).

(** A pure call that may raise, run inside [M]. *)
Definition lift {A} (r : result A) : M A := ([], r).

(** [try: body except Exception as ex: handler(ex)]. *)
Definition try_except {A} (body : M A) (handler : exception -> M A) : M A :=
  match body with
  | (t, Ok a) => (t, Ok a)
  | (t, Raise ex) => let '(t', r) := handler ex in (t ++ t', r)
  end.

Definition is_http_get (ev : event) : bool :=
  match ev with EvHttpGet _ _ _ _ => true | _ => false end.

Definition is_parse (ev : event) : bool :=
  match ev with EvParseFilter _ => true | _ => false end.

Definition is_warning (ev : event) : bool :=
  match ev with EvLog WARNING _ => true | _ => false end.

(* --------------------------------------------------------------------- *)
(* Python syntax trees, as [ast.parse(expr, mode="eval").body] gives them *)
(* --------------------------------------------------------------------- *)

Module ast.
Inductive constant : Type :=
| CNone
| CBool (b : bool)
| CInt (z : Z)
| CStr (s : string).

Inductive boolop : Type := And | Or.

Inductive cmpop : Type := Eq | NotEq | Lt | LtE | Gt | GtE | Is | IsNot | In | NotIn.

Inductive expr : Type :=
| Name (id : string)
| Attribute (value : expr) (attr : string)
| Constant (c : constant)
| List_ (elts : list expr)
| Compare (left : expr) (ops : list cmpop) (comparators : list expr)
| BoolOp (op : boolop) (values : list expr)
| Not (operand : expr)
| Lambda (args : list string) (body : expr)
| Call (func : expr) (args : list expr).
End ast.

(** Python's [str(value)] of a literal. *)
Definition str_of_constant (c : ast.constant) : string :=
  match c with
  | ast.CNone => "None"
  | ast.CBool true => "True"
  | ast.CBool false => "False"
  | ast.CInt z => pretty z
  | ast.CStr s => s
  end.

(** A [dict[str, str]], as the sequence of its items in insertion order. *)
Definition dict_items : Type := list (string * string).

(* --------------------------------------------------------------------- *)
(* Expression parser                                                      *)
(* --------------------------------------------------------------------- *)

Definition invalid_filter (what : string) : exception :=
  MkException (OtherException "InvalidFilterExpression") what None.

(** The field a comparison is about: the attribute accessed on the bound
    parameter, or a bare name in a predicate body that binds none. *)
Definition field_of (bound : option string) (lhs : ast.expr) : option string :=
  match lhs with
  | ast.Attribute (ast.Name p) attr =>
      match bound with
      | Some x => if String.eqb p x then Some attr else None
      | None => Some attr
      end
  | ast.Name id =>
      match bound with
      | Some _ => None
      | None => Some id
      end
  | _ => None
  end.

Definition literal_of (e : ast.expr) : option ast.constant :=
  match e with
  | ast.Constant ast.CNone => None
  | ast.Constant c => Some c
  | _ => None
  end.

Fixpoint literals_of (es : list ast.expr) : option (list ast.constant) :=
  match es with
  | [] => Some []
  | e :: es' =>
      match literal_of e, literals_of es' with
      | Some c, Some cs => Some (c :: cs)
      | _, _ => None
      end
  end.

Definition allowed (valid_parameters : list string) (field : string) : bool :=
  existsb (String.eqb field) valid_parameters.

(** Modelled from the spec: the walk of [SearchLambdaVisitor] over the
    syntax tree (the class lives in [connectors/_search_shared.py], which
    is not part of the sources at hand).  Section 4.1 of the specification:
    a single bound parameter; comparisons [==] and [in]; conjunction of
    such comparisons; literal operands; every other construct fails; the
    compared field must be on the allow-list or the whole parse fails; an
    equality emits one pair, a membership in a literal list one pair per
    element, in left-to-right visitation order.  Each pair is a one-entry
    dict, as [_parse_filter_lambda] returns a [list[dict[str, str]]].
    [visit_body] walks a predicate body, [visit] a whole expression: a
    lambda of one parameter or a bare body. *)
Fixpoint visit_body (valid_parameters : list string) (bound : option string)
    (node : ast.expr) : result (list dict_items) :=
  match node with
  | ast.BoolOp ast.And values =>
      (fix visit_all (vs : list ast.expr) : result (list dict_items) :=
         match vs with
         | [] => Ok []
         | v :: vs' =>
             match visit_body valid_parameters bound v with
             | Ok filters =>
                 match visit_all vs' with
                 | Ok filters' => Ok (filters ++ filters')
                 | Raise e => Raise e
                 end
             | Raise e => Raise e
             end
         end) values
  | ast.Compare lhs [ast.Eq] [rhs] =>
      match field_of bound lhs, literal_of rhs with
      | Some field, Some c =>
          if allowed valid_parameters field
          then Ok [[(field, str_of_constant c)]]
          else Raise (invalid_filter ("field not allowed: " +:+ field))
      | None, _ => Raise (invalid_filter "unsupported left operand")
      | _, None => Raise (invalid_filter "unsupported right operand")
      end
  | ast.Compare lhs [ast.In] [ast.List_ elts] =>
      match field_of bound lhs, literals_of elts with
      | Some field, Some cs =>
          if allowed valid_parameters field
          then Ok (map (fun c => [(field, str_of_constant c)]) cs)
          else Raise (invalid_filter ("field not allowed: " +:+ field))
      | None, _ => Raise (invalid_filter "unsupported left operand")
      | _, None => Raise (invalid_filter "unsupported list element")
      end
  | _ => Raise (invalid_filter "unsupported construct")
  end.

Definition visit (valid_parameters : list string) (node : ast.expr)
  : result (list dict_items) :=
  match node with
  | ast.Lambda [x] body => visit_body valid_parameters (Some x) body
  | ast.Lambda _ _ => Raise (invalid_filter "lambda must bind one parameter")
  | _ => visit_body valid_parameters None node
  end.

(** ASCII white space; [str.strip()] removes it from both ends.  (Python
    also strips non-ASCII white space, which no filter text here has.) *)
Definition is_space (c : ascii) : bool :=
  let n := nat_of_ascii c in
  ((9 <=? n)%nat && (n <=? 13)%nat) || ((28 <=? n)%nat && (n <=? 32)%nat).

Fixpoint lstrip (s : string) : string :=
  match s with
  | String c s' => if is_space c then lstrip s' else s
  | EmptyString => EmptyString
  end.

Fixpoint rstrip (s : string) : string :=
  match s with
  | String c s' =>
      match rstrip s' with
      | EmptyString => if is_space c then EmptyString else String c EmptyString
      | r => String c r
      end
  | EmptyString => EmptyString
  end.

Definition strip (s : string) : string := rstrip (lstrip s).

(* --------------------------------------------------------------------- *)
(* The connector                                                          *)
(* --------------------------------------------------------------------- *)

Record HttpResponse : Type := { status_code : Z; text : string }.

(** What the connector calls and does not define: the standard library
    ([inspect.getsource], [ast.parse]), httpx, pydantic and the telemetry
    constant. *)
Record World : Type := {
  getsource : callable -> result string;
  ast_parse : string -> result ast.expr;
  client_get : string -> gmap string string -> gmap string pyval ->
               result HttpResponse;
  raise_for_status : HttpResponse -> result unit;
  model_validate_json : string -> result BraveSearchResponse.t;
  SEMANTIC_KERNEL_USER_AGENT : string
}.

Record SecretStr : Type := { get_secret_value : string }.

Record BraveSettings : Type := { api_key : SecretStr }.

Record BraveSearch : Type := { settings : BraveSettings }.

(** What [search] is asked to produce: the classes [str] and
    [TextSearchResult], the literal ["Any"], or any other object. *)
Inductive output_type_t : Type :=
| TyStr
| TyTextSearchResult
| LitAny
| TyOther (name : string).

(** [output_type is str] and [output_type is TextSearchResult]. *)
Definition is_str (t : output_type_t) : bool :=
  match t with TyStr => true | _ => false end.
Definition is_TextSearchResult (t : output_type_t) : bool :=
  match t with TyTextSearchResult => true | _ => false end.

(** The three shapes of the result sequence. *)
Inductive result_seq : Type :=
| Strings (l : list pyval)
| TextSearchResults (l : list TextSearchResult.t)
| WebPages (l : list BraveWebPage.t).

(** Modelled from the spec: the result type of
    [semantic_kernel/data/text_search.py], which is not among the sources
    at hand.  Section 6: an asynchronous collection of results, an optional
    total count and a metadata mapping. *)
Module KernelSearchResults.
Record t : Type := Build {
  results : result_seq;
  total_count : option Z;
  metadata : gmap string pyval
}.
End KernelSearchResults.

(** [params[field] = value] for every item of [d], in order. *)
Definition update_items (params : gmap string pyval) (d : dict_items)
  : gmap string pyval :=
  fold_left (fun p '(field, value) => <[field := PyStr value]> p) d params.

(** The two nested loops over the parser's result. *)
Definition update_all (params : gmap string pyval) (ds : list dict_items)
  : gmap string pyval :=
  fold_left update_items ds params.

(** [filters] after [if not isinstance(filters, list): filters = [filters]]
    (None never gets there: it is falsy). *)
Definition as_list (filters : filter_input) : list filter_expr :=
  match filters with
  | FilterList fs => fs
  | FilterOne f => [f]
  | FilterNone => []
  end.

(** The dict literal that [params] starts from. *)
Definition base_params (query : option string) (options : SearchOptions.t)
  : gmap string pyval :=
  <["offset" := PyInt (SearchOptions.skip options)]>
  (<["count" := PyInt (SearchOptions.top options)]>
  (<["q" := py_or (of_opt query) (PyStr "")]> ∅)).

(** The three [except] clauses of [_inner_search]: log the error and raise
    [ServiceInvalidRequestError ... from ex]. *)
Definition on_transport_error {A} (ex : exception) : M A :=
  match exc_class ex with
  | HTTPStatusError =>
      emit (EvLog ERROR (FailedToGetResults ex)) ;;
      raise (MkException ServiceInvalidRequestError
               "Failed to get search results." (Some ex))
  | RequestError =>
      emit (EvLog ERROR (ClientErrorOccurred ex)) ;;
      raise (MkException ServiceInvalidRequestError
               "A client error occurred while getting search results."
               (Some ex))
  | _ =>
      emit (EvLog ERROR (UnexpectedErrorOccurred ex)) ;;
      raise (MkException ServiceInvalidRequestError
               "An unexpected error occurred while getting search results."
               (Some ex))
  end.

Section Connector.
Variable W : World.

Definition _parse_filter_lambda (filter_lambda : filter_expr)
  : M (list dict_items) :=
  emit (EvParseFilter filter_lambda) ;;
  expr ← lift (match filter_lambda with
               | FStr s => Ok s
               | FCallable c =>
                   match getsource W c with
                   | Ok src => Ok (strip src)
                   | Raise e => Raise e
                   end
               end) ;
  node ← lift (ast_parse W expr) ;
  lift (visit QUERY_PARAMETERS node).

(** The loop [for f in filters: try: ... except Exception: ... continue]. *)
Fixpoint for_filters (filters : list filter_expr)
    (params : gmap string pyval) : M (gmap string pyval) :=
  match filters with
  | [] => mret params
  | f :: rest =>
      params' ← try_except
                  (ds ← _parse_filter_lambda f ; mret (update_all params ds))
                  (fun exc =>
                     emit (EvLog WARNING (FailedToParseFilter f exc)) ;;
                     mret params) ;
      for_filters rest params'
  end.

Definition _build_request_parameters (query : option string)
    (options : SearchOptions.t) : M (gmap string pyval) :=
  let params := base_params query options in
  if filter_falsy (SearchOptions.filter options) then mret params
  else for_filters (as_list (SearchOptions.filter options)) params.

(** The body of the [try] block of [_inner_search]. *)
Definition http_call (url : string) (headers : gmap string string)
    (params : gmap string pyval) : M BraveSearchResponse.t :=
  emit (EvHttpGet 5 url headers params) ;;
  response ← lift (client_get W url headers params) ;
  lift (raise_for_status W response) ;;
  lift (model_validate_json W (text response)).

(** The dict literal [headers] of [_inner_search]. *)
Definition headers (self : BraveSearch) : gmap string string :=
  <["user_agent" := SEMANTIC_KERNEL_USER_AGENT W]>
  (<["X-Subscription-Token" :=
       get_secret_value (api_key (settings self))]> ∅).

Definition _inner_search (self : BraveSearch) (query : option string)
    (options : SearchOptions.t) : M BraveSearchResponse.t :=
  lift (_validate_options options) ;;
  emit (EvLog INFO (ReceivedRequest (SearchOptions.top options)
                                    (SearchOptions.skip options))) ;;
  let url := _get_url in
  params ← _build_request_parameters query options ;
  emit (EvLog INFO (SendingGetRequest url)) ;;
  try_except (http_call url (headers self) params) on_transport_error.

(** The shape of the result sequence that [search] picks. *)
Definition select_results (output_type : output_type_t)
    (response : BraveSearchResponse.t) : result_seq :=
  if is_str output_type then Strings (_get_result_strings response)
  else if is_TextSearchResult output_type
       then TextSearchResults (_get_text_search_results response)
       else WebPages (_get_brave_web_pages response).

(** [search]; the extra keyword arguments, which only reach the options
    constructor, are left out. *)
Definition search (self : BraveSearch) (query : option string)
    (output_type : output_type_t) (filter : filter_input) (skip top : Z)
    (include_total_count : bool) : M KernelSearchResults.t :=
  let options := SearchOptions.Build filter skip top include_total_count in
  results ← _inner_search self query options ;
  mret (KernelSearchResults.Build
          (select_results output_type results)
          (_get_total_count results options)
          (_get_metadata results)).
End Connector.

(* --------------------------------------------------------------------- *)
(* The filter assembler as the specification words it                     *)
(* --------------------------------------------------------------------- *)

(** Section 4.2: the filter input as an ordered sequence; a single
    expression is wrapped, an empty or absent input gives the empty
    sequence. *)
Definition normalize (filters : filter_input) : list filter_expr :=
  if filter_falsy filters then [] else as_list filters.

(** Folding pairs into a mapping, left to right. *)
Definition fold_pairs (base : gmap string pyval) (pairs : list (string * string))
  : gmap string pyval :=
  fold_left (fun m '(field, value) => <[field := PyStr value]> m) pairs base.

(** The value of the last pair for [field], if there is one. *)
Definition last_value (field : string) (pairs : list (string * string))
  : option string :=
  match last (filter (fun p => p.1 = field) pairs) with
  | Some p => Some p.2
  | None => None
  end.

Section Assembler.
Variable W : World.

(** The pairs one expression contributes: those of its parse when it
    succeeds, none when it fails. *)
Definition parsed_pairs (f : filter_expr) : list (string * string) :=
  match outcome (_parse_filter_lambda W f) with
  | Ok ds => concat ds
  | Raise _ => []
  end.

(** The pairs of the successfully parsed expressions, in order. *)
Definition successful_pairs (fs : list filter_expr)
  : list (string * string) :=
  concat (map parsed_pairs fs).

(** What one expression leaves in the trace: the call of the parser and,
    if it raised, one warning. *)
Definition filter_events (f : filter_expr) : list event :=
  EvParseFilter f ::
  match outcome (_parse_filter_lambda W f) with
  | Ok _ => []
  | Raise exc => [EvLog WARNING (FailedToParseFilter f exc)]
  end.

(** The request parameters: the base parameters overlaid with the merged
    filter pairs. *)
Definition request_params (query : option string)
    (options : SearchOptions.t) : gmap string pyval :=
  fold_pairs (base_params query options)
    (successful_pairs (normalize (SearchOptions.filter options))).
End Assembler.

(* --------------------------------------------------------------------- *)
(* Sample inputs                                                          *)
(* --------------------------------------------------------------------- *)

Module Sample.
Definition dq : string := String "034"%char EmptyString.

(** The text [country in ["a","b"]], with its double quotes. *)
Definition country_in_a_b_text : string :=
  "country in [" +:+ dq +:+ "a" +:+ dq +:+ "," +:+ dq +:+ "b" +:+ dq +:+ "]".

(** The same expression as a syntax tree. *)
Definition country_in_a_b : ast.expr :=
  ast.Compare (ast.Name "country") [ast.In]
    [ast.List_ [ast.Constant (ast.CStr "a"); ast.Constant (ast.CStr "b")]].

(** [lambda x: x.units == 5] as a syntax tree. *)
Definition units_is_5 : ast.expr :=
  ast.Lambda ["x"]
    (ast.Compare (ast.Attribute (ast.Name "x") "units") [ast.Eq]
       [ast.Constant (ast.CInt 5)]).

Definition syntax_error : exception :=
  MkException (OtherException "SyntaxError") "invalid syntax" None.

Definition page (title description : option string) : BraveWebPage.t :=
  BraveWebPage.Build (Some "search_result") title (Some "https://example.org")
    None description None None None None None None.

Definition two_pages : BraveSearchResponse.t :=
  BraveSearchResponse.Build "search" {[ "original" := PyStr "cats" ]}
    (Some (BraveWebPages.Build (Some "search") None
             [page (Some "Cats") (Some "About cats"); page (Some "Dogs") None])).

Definition no_web_section : BraveSearchResponse.t :=
  BraveSearchResponse.default.

(** A world whose parser knows two expressions, whose HTTP client
    answers 200 to the queries "cats" and "odd", 503 to "down" and refuses
    the connection otherwise, and whose decoder accepts the body sent for
    "cats" only. *)
Definition world : World := {|
  getsource := fun c =>
    if String.eqb (callable_name c) "by_units"
    then Ok ("  lambda x: x.units == 5" +:+ String "010"%char EmptyString)
    else Raise (MkException (OtherException "OSError")
                  "could not get source code" None);
  ast_parse := fun src =>
    if String.eqb src country_in_a_b_text then Ok country_in_a_b
    else if String.eqb src "lambda x: x.units == 5" then Ok units_is_5
    else Raise syntax_error;
  client_get := fun _ _ params =>
    match params !! "q" with
    | Some (PyStr "cats") => Ok {| status_code := 200; text := "two pages" |}
    | Some (PyStr "odd") => Ok {| status_code := 200; text := "<html>" |}
    | Some (PyStr "down") => Ok {| status_code := 503; text := "" |}
    | _ => Raise (MkException RequestError "connection refused" None)
    end;
  raise_for_status := fun response =>
    if (200 <=? status_code response) && (status_code response <? 300)
    then Ok tt
    else Raise (MkException HTTPStatusError "server error" None);
  model_validate_json := fun body =>
    if String.eqb body "two pages" then Ok two_pages
    else Raise (MkException (OtherException "ValidationError")
                  "invalid JSON" None);
  SEMANTIC_KERNEL_USER_AGENT := "semantic-kernel-python/1.0"
|}.

Definition connector : BraveSearch :=
  {| settings := {| api_key := {| get_secret_value := "secret" |} |} |}.
End Sample.

(* --------------------------------------------------------------------- *)
(* Construction of the connector                                          *)
(* --------------------------------------------------------------------- *)

(** [BraveSettings(api_key=..., env_file_path=..., env_file_encoding=...)]:
    the settings loader of the framework, which reads the environment and
    the .env file and may raise pydantic's ValidationError. *)
Definition settings_loader : Type :=
  option string -> option string -> option string -> result BraveSettings.

(** [isinstance(ex, ValidationError)]. *)
Definition is_ValidationError (ex : exception) : bool :=
  match exc_class ex with
  | OtherException name => String.eqb name "ValidationError"
  | _ => false
  end.

Definition ServiceInitializationError : exn_class :=
  OtherException "ServiceInitializationError".

(** [BraveSearch.__init__]: only a ValidationError of the loader is caught
    and raised again as ServiceInitializationError from it. *)
Definition __init__ (load : settings_loader)
    (api_key env_file_path env_file_encoding : option string)
  : result BraveSearch :=
  match load api_key env_file_path env_file_encoding with
  | Ok settings => Ok {| settings := settings |}
  | Raise ex =>
      if is_ValidationError ex
      then Raise (MkException ServiceInitializationError
                    "Failed to create Brave settings." (Some ex))
      else Raise ex
  end.

(* --------------------------------------------------------------------- *)
(* Observations on results and traces                                     *)
(* --------------------------------------------------------------------- *)

(** The number of items a result sequence yields. *)
Definition result_seq_length (r : result_seq) : nat :=
  match r with
  | Strings l => length l
  | TextSearchResults l => length l
  | WebPages l => length l
  end.

Definition is_error (ev : event) : bool :=
  match ev with EvLog ERROR _ => true | _ => false end.

(** The record the [except] clause that catches [ex] logs. *)
Definition error_record (ex : exception) : log_record :=
  match exc_class ex with
  | HTTPStatusError => FailedToGetResults ex
  | RequestError => ClientErrorOccurred ex
  | _ => UnexpectedErrorOccurred ex
  end.

(** The keys the request always has. *)
Definition base_keys : gset string := {[ "q"; "count"; "offset" ]}.

(** The field names of a sequence of pairs. *)
Definition fields (pairs : list (string * string)) : gset string :=
  list_to_set (map fst pairs).

Module SampleInit.
(** A loader that takes the key given to the constructor, and fails
    validation when there is none. *)
Definition from_argument : settings_loader :=
  fun api_key _ _ =>
    match api_key with
    | Some k => Ok {| api_key := {| get_secret_value := k |} |}
    | None => Raise (MkException (OtherException "ValidationError")
                       "api_key: field required" None)
    end.

(** A loader that cannot read the .env file. *)
Definition unreadable : settings_loader :=
  fun _ _ _ =>
    Raise (MkException (OtherException "OSError") "permission denied" None).

Definition missing_key : exception :=
  MkException (OtherException "ValidationError") "api_key: field required" None.
End SampleInit.

(* ===================================================================== *)
(* Properties                                                             *)
(* ===================================================================== *)

(* --------------------------------------------------------------------- *)
(* How the effects compose                                                *)
(* --------------------------------------------------------------------- *)

Lemma outcome_bind {A B} (m : M A) (f : A -> M B) :
  outcome (m ≫= f) =
  match outcome m with
  | Ok a => outcome (f a)
  | Raise e => Raise e
  end.
Proof.
  destruct m as [t [a|e]]; cbn; [|reflexivity].
  destruct (f a) as [t' r]; reflexivity.
Qed.

Lemma trace_bind {A B} (m : M A) (f : A -> M B) :
  trace (m ≫= f) =
  trace m ++ match outcome m with
             | Ok a => trace (f a)
             | Raise _ => []
             end.
Proof.
  destruct m as [t [a|e]]; cbn.
  - destruct (f a) as [t' r]; reflexivity.
  - symmetry; apply app_nil_r.
Qed.

Lemma outcome_try_except {A} (body : M A) (handler : exception -> M A) :
  outcome (try_except body handler) =
  match outcome body with
  | Ok a => Ok a
  | Raise ex => outcome (handler ex)
  end.
Proof.
  destruct body as [t [a|e]]; cbn; [reflexivity|].
  destruct (handler e); reflexivity.
Qed.

Lemma trace_try_except {A} (body : M A) (handler : exception -> M A) :
  trace (try_except body handler) =
  trace body ++ match outcome body with
                | Ok _ => []
                | Raise ex => trace (handler ex)
                end.
Proof.
  destruct body as [t [a|e]]; cbn.
  - symmetry; apply app_nil_r.
  - destruct (handler e); reflexivity.
Qed.

Lemma M_eta {A} (m : M A) : m = (trace m, outcome m).
Proof. destruct m; reflexivity. Qed.

(** The handler always raises the connector's own error, caused by [ex]. *)
Lemma on_transport_error_outcome {A} (ex : exception) :
  exists msg,
    outcome (@on_transport_error A ex) =
    Raise (MkException ServiceInvalidRequestError msg (Some ex)).
Proof.
  unfold on_transport_error.
  destruct (exc_class ex); eexists; reflexivity.
Qed.

Lemma on_transport_error_no_get {A} (ex : exception) :
  filter (fun ev => is_http_get ev = true) (trace (@on_transport_error A ex))
  = [].
Proof.
  unfold on_transport_error.
  destruct (exc_class ex); reflexivity.
Qed.

(* --------------------------------------------------------------------- *)
(* Options validation                                                     *)
(* --------------------------------------------------------------------- *)

Lemma _validate_options_ok (options : SearchOptions.t) :
  1 <= SearchOptions.top options <= 20 ->
  0 <= SearchOptions.skip options <= 9 ->
  _validate_options options = Ok tt.
Proof.
  intros Htop Hskip. unfold _validate_options.
  destruct (Z.leb_spec (SearchOptions.top options) 0); [lia|].
  destruct (Z.geb_spec (SearchOptions.top options) 21); [lia|].
  destruct (Z.ltb_spec (SearchOptions.skip options) 0); [lia|].
  destruct (Z.gtb_spec (SearchOptions.skip options) 9); [lia|].
  reflexivity.
Qed.

Lemma _validate_options_raises (options : SearchOptions.t) :
  SearchOptions.top options <= 0 \/ SearchOptions.top options >= 21 \/
  SearchOptions.skip options < 0 \/ SearchOptions.skip options > 9 ->
  exists msg,
    _validate_options options =
    Raise (MkException ServiceInvalidRequestError msg None).
Proof.
  intros H. unfold _validate_options.
  destruct (Z.leb_spec (SearchOptions.top options) 0); [eexists; reflexivity|].
  destruct (Z.geb_spec (SearchOptions.top options) 21); [eexists; reflexivity|].
  destruct (Z.ltb_spec (SearchOptions.skip options) 0); [eexists; reflexivity|].
  destruct (Z.gtb_spec (SearchOptions.skip options) 9); [eexists; reflexivity|].
  lia.
Qed.

(** When validation raises, [_inner_search] ends there: it has logged
    nothing, parsed nothing and sent nothing. *)
Lemma _inner_search_invalid (W : World) (self : BraveSearch)
    (query : option string) (options : SearchOptions.t) (e : exception) :
  _validate_options options = Raise e ->
  _inner_search W self query options = ([], Raise e).
Proof.
  intros H. unfold _inner_search. rewrite H. reflexivity.
Qed.

Lemma search_invalid (W : World) (self : BraveSearch) (query : option string)
    (output_type : output_type_t) (options : SearchOptions.t) (e : exception) :
  _validate_options options = Raise e ->
  search W self query output_type (SearchOptions.filter options)
    (SearchOptions.skip options) (SearchOptions.top options)
    (SearchOptions.include_total_count options) = ([], Raise e).
Proof.
  intros H. unfold search.
  rewrite (_inner_search_invalid W self query _ e); [reflexivity|].
  destruct options; exact H.
Qed.

(** C2: for every top in [1,20] and skip in [0,9] validation passes; for
    top <= 0, top >= 21, skip < 0 or skip > 9 it raises the invalid-request
    error, and [_inner_search] (hence [search]) then ends with that error
    and an empty trace, whatever the parser and the HTTP client would do:
    no filter was parsed and no request was sent. *)
Theorem validation_bounds_fail_fast (options : SearchOptions.t) :
  (1 <= SearchOptions.top options <= 20 ->
   0 <= SearchOptions.skip options <= 9 ->
   _validate_options options = Ok tt) /\
  (SearchOptions.top options <= 0 \/ SearchOptions.top options >= 21 \/
   SearchOptions.skip options < 0 \/ SearchOptions.skip options > 9 ->
   exists msg,
     let e := MkException ServiceInvalidRequestError msg None in
     _validate_options options = Raise e /\
     forall (W : World) (self : BraveSearch) (query : option string),
       _inner_search W self query options = ([], Raise e) /\
       forall output_type,
         search W self query output_type (SearchOptions.filter options)
           (SearchOptions.skip options) (SearchOptions.top options)
           (SearchOptions.include_total_count options) = ([], Raise e)).
Proof.
  split.
  - apply _validate_options_ok.
  - intros H. destruct (_validate_options_raises options H) as [msg Hmsg].
    exists msg. cbn zeta. split; [exact Hmsg|].
    intros W self query. split.
    + apply _inner_search_invalid; exact Hmsg.
    + intros output_type. apply search_invalid; exact Hmsg.
Qed.

Lemma validation_bounds_fail_fast_witness :
  _validate_options (SearchOptions.Build FilterNone 9 20 false) = Ok tt /\
  exists msg,
    let e := MkException ServiceInvalidRequestError msg None in
    let options :=
      SearchOptions.Build (FilterList [FStr "units == 5"]) 0 21 true in
    _validate_options options = Raise e /\
    forall (W : World) (self : BraveSearch) (query : option string),
      _inner_search W self query options = ([], Raise e) /\
      forall output_type,
        search W self query output_type (FilterList [FStr "units == 5"])
          0 21 true = ([], Raise e).
Proof.
  split.
  - apply (proj1 (validation_bounds_fail_fast
                    (SearchOptions.Build FilterNone 9 20 false))); simpl; lia.
  - apply (proj2 (validation_bounds_fail_fast
                    (SearchOptions.Build (FilterList [FStr "units == 5"])
                       0 21 true))).
    simpl; lia.
Defined.

(* --------------------------------------------------------------------- *)
(* Response mapper                                                        *)
(* --------------------------------------------------------------------- *)

(** C3: the total count is the number of web-page results exactly when
    the count was requested and the payload has a web-page section, and is
    absent otherwise; with N results and the flag set it is N, with the
    flag cleared it is absent. *)
Theorem total_count_iff_requested_and_present
    (response : BraveSearchResponse.t) (options : SearchOptions.t) :
  (forall n : Z,
     _get_total_count response options = Some n <->
     SearchOptions.include_total_count options = true /\
     exists web_pages,
       BraveSearchResponse.web_pages response = Some web_pages /\
       n = Z.of_nat (length (BraveWebPages.results web_pages))) /\
  (_get_total_count response options = None <->
   SearchOptions.include_total_count options = false \/
   BraveSearchResponse.web_pages response = None) /\
  (forall web_pages,
     BraveSearchResponse.web_pages response = Some web_pages ->
     SearchOptions.include_total_count options = true ->
     _get_total_count response options =
     Some (Z.of_nat (length (BraveWebPages.results web_pages)))) /\
  (SearchOptions.include_total_count options = false ->
   _get_total_count response options = None).
Proof.
  unfold _get_total_count.
  destruct (SearchOptions.include_total_count options);
    destruct (BraveSearchResponse.web_pages response) as [wps|];
    repeat split; try congruence; intros;
    repeat match goal with
           | H : _ /\ _ |- _ => destruct H
           | H : _ \/ _ |- _ => destruct H
           | H : exists _, _ |- _ => destruct H
           end;
    try congruence; eauto.
  exists wps. split; congruence.
Qed.

Lemma total_count_iff_requested_and_present_witness :
  _get_total_count Sample.two_pages
    (SearchOptions.Build FilterNone 0 5 true) = Some 2 /\
  _get_total_count Sample.two_pages
    (SearchOptions.Build FilterNone 0 5 false) = None.
Proof.
  pose proof (total_count_iff_requested_and_present Sample.two_pages
                (SearchOptions.Build FilterNone 0 5 true)) as Hon.
  pose proof (total_count_iff_requested_and_present Sample.two_pages
                (SearchOptions.Build FilterNone 0 5 false)) as Hoff.
  split.
  - destruct Hon as (_ & _ & Hn & _).
    exact (Hn _ eq_refl eq_refl).
  - destruct Hoff as (_ & _ & _ & Hnone).
    exact (Hnone eq_refl).
Defined.

(** C5: when the payload has no web-page section, the string, the
    text-search-result and the raw web-page sequences are all empty, and the
    total count is absent whether or not it was requested. *)
Theorem no_web_section_empty_results (response : BraveSearchResponse.t) :
  BraveSearchResponse.web_pages response = None ->
  _get_result_strings response = [] /\
  _get_text_search_results response = [] /\
  _get_brave_web_pages response = [] /\
  (forall output_type,
     select_results output_type response = Strings [] \/
     select_results output_type response = TextSearchResults [] \/
     select_results output_type response = WebPages []) /\
  forall options, _get_total_count response options = None.
Proof.
  intros H.
  unfold _get_result_strings, _get_text_search_results, _get_brave_web_pages,
    select_results, _get_total_count,
    _get_result_strings, _get_text_search_results, _get_brave_web_pages.
  rewrite H. repeat split.
  - intros ot.
    destruct (is_str ot); [left; reflexivity|].
    destruct (is_TextSearchResult ot); [right; left|right; right]; reflexivity.
  - intros options.
    destruct (SearchOptions.include_total_count options); reflexivity.
Qed.

Lemma no_web_section_empty_results_witness :
  _get_result_strings Sample.no_web_section = [] /\
  _get_text_search_results Sample.no_web_section = [] /\
  _get_brave_web_pages Sample.no_web_section = [] /\
  (forall output_type,
     select_results output_type Sample.no_web_section = Strings [] \/
     select_results output_type Sample.no_web_section = TextSearchResults [] \/
     select_results output_type Sample.no_web_section = WebPages []) /\
  forall options, _get_total_count Sample.no_web_section options = None.
Proof.
  apply (no_web_section_empty_results Sample.no_web_section).
  reflexivity.
Defined.

Lemma py_or_of_opt_str (x : option string) :
  exists s, py_or (of_opt x) (PyStr "") = PyStr s.
Proof.
  destruct x as [[|c s]|]; eexists; reflexivity.
Qed.

(** C10: the string sequence has exactly one element per web-page
    result, in order; the element of a result whose description is absent is
    the empty string; and every element is a string, never None. *)
Theorem result_strings_total_and_null_free (response : BraveSearchResponse.t) :
  length (_get_result_strings response) =
  length (_get_brave_web_pages response) /\
  (forall (i : nat) (web_page : BraveWebPage.t),
     _get_brave_web_pages response !! i = Some web_page ->
     _get_result_strings response !! i =
     Some (py_or (of_opt (BraveWebPage.description web_page)) (PyStr "")) /\
     (BraveWebPage.description web_page = None ->
      _get_result_strings response !! i = Some (PyStr ""))) /\
  (forall y, y ∈ _get_result_strings response -> exists s, y = PyStr s) /\
  PyNone ∉ _get_result_strings response.
Proof.
  unfold _get_result_strings, _get_brave_web_pages.
  destruct (BraveSearchResponse.web_pages response) as [wps|].
  - assert (Hall : forall y,
              y ∈ map (fun web_page =>
                         py_or (of_opt (BraveWebPage.description web_page))
                               (PyStr "")) (BraveWebPages.results wps) ->
              exists s, y = PyStr s).
    { intros y Hy. apply list_elem_of_fmap in Hy as (wp & -> & _).
      apply py_or_of_opt_str. }
    repeat split.
    + apply length_map.
    + rewrite list_lookup_fmap, H. reflexivity.
    + intros Hd. rewrite list_lookup_fmap, H. cbn. rewrite Hd. reflexivity.
    + exact Hall.
    + intros Hnone. destruct (Hall _ Hnone) as [s Hs]. discriminate.
  - repeat split; try discriminate.
    + intros y Hy. inversion Hy.
    + intros Hy. inversion Hy.
Qed.

Lemma result_strings_total_and_null_free_witness :
  _get_result_strings Sample.two_pages !! 1%nat = Some (PyStr "").
Proof.
  destruct (result_strings_total_and_null_free Sample.two_pages)
    as (_ & Hnth & _).
  exact (proj2 (Hnth 1%nat (Sample.page (Some "Dogs") None) eq_refl) eq_refl).
Defined.

(* --------------------------------------------------------------------- *)
(* Filter assembler and request builder                                   *)
(* --------------------------------------------------------------------- *)

Section AssemblerFacts.
Variable W : World.

Lemma _parse_filter_lambda_trace (f : filter_expr) :
  trace (_parse_filter_lambda W f) = [EvParseFilter f].
Proof.
  unfold _parse_filter_lambda.
  rewrite trace_bind; cbn [emit trace outcome fst snd].
  rewrite trace_bind.
  destruct f as [s|c]; cbn [lift trace outcome fst snd].
  - rewrite trace_bind; cbn [lift trace outcome fst snd].
    destruct (ast_parse W s); reflexivity.
  - destruct (getsource W c); [|reflexivity].
    rewrite trace_bind; cbn [lift trace outcome fst snd].
    destruct (ast_parse W (strip a)); reflexivity.
Qed.

Lemma update_all_concat (ds : list dict_items) (params : gmap string pyval) :
  update_all params ds = fold_pairs params (concat ds).
Proof.
  unfold update_all, fold_pairs. revert params.
  induction ds as [|d ds IH]; intros params; [reflexivity|].
  cbn [fold_left concat]. rewrite fold_left_app. apply IH.
Qed.

Lemma fold_pairs_app (base : gmap string pyval) (p1 p2 : list (string * string)) :
  fold_pairs base (p1 ++ p2) = fold_pairs (fold_pairs base p1) p2.
Proof. apply fold_left_app. Qed.

(** The loop, in one equation: each expression is handed to the parser
    in order, a failure leaves one warning and the parameters as they
    were, and the loop itself never raises. *)
Lemma for_filters_spec (fs : list filter_expr) (params : gmap string pyval) :
  for_filters W fs params =
  (concat (map (filter_events W) fs),
   Ok (fold_pairs params (successful_pairs W fs))).
Proof.
  revert params. induction fs as [|f fs IH]; intros params; [reflexivity|].
  cbn [for_filters].
  pose proof (_parse_filter_lambda_trace f) as Ht.
  unfold successful_pairs, filter_events, parsed_pairs in *.
  cbn [map concat].
  destruct (_parse_filter_lambda W f) as [t [ds|exc]] eqn:Hp;
    cbn [trace outcome fst snd] in *; subst t; rewrite fold_pairs_app.
  - cbn. rewrite IH. rewrite update_all_concat. reflexivity.
  - cbn. rewrite IH. reflexivity.
Qed.

Lemma _build_request_parameters_spec (query : option string)
    (options : SearchOptions.t) :
  _build_request_parameters W query options =
  (concat (map (filter_events W) (normalize (SearchOptions.filter options))),
   Ok (request_params W query options)).
Proof.
  unfold _build_request_parameters, request_params, normalize.
  destruct (filter_falsy (SearchOptions.filter options)); [reflexivity|].
  apply for_filters_spec.
Qed.

Lemma http_call_trace (url : string) (hdrs : gmap string string)
    (params : gmap string pyval) :
  trace (http_call W url hdrs params) = [EvHttpGet 5 url hdrs params].
Proof.
  unfold http_call.
  rewrite trace_bind; cbn [emit trace outcome fst snd].
  rewrite trace_bind; cbn [lift trace outcome fst snd].
  destruct (client_get W url hdrs params) as [response|e]; [|reflexivity].
  rewrite trace_bind; cbn [lift trace outcome fst snd].
  destruct (raise_for_status W response); reflexivity.
Qed.

(** [_inner_search] once validation has passed. *)
Lemma _inner_search_valid (self : BraveSearch) (query : option string)
    (options : SearchOptions.t) :
  _validate_options options = Ok tt ->
  _inner_search W self query options =
  (EvLog INFO (ReceivedRequest (SearchOptions.top options)
                               (SearchOptions.skip options)) ::
   concat (map (filter_events W) (normalize (SearchOptions.filter options))) ++
   EvLog INFO (SendingGetRequest DEFAULT_URL) ::
   trace (try_except
            (http_call W DEFAULT_URL (headers W self)
               (request_params W query options))
            on_transport_error),
   outcome (try_except
              (http_call W DEFAULT_URL (headers W self)
                 (request_params W query options))
              on_transport_error)).
Proof.
  intros Hv. rewrite (M_eta (_inner_search W self query options)).
  unfold _inner_search. rewrite Hv, _build_request_parameters_spec.
  unfold _get_url. f_equal.
  - rewrite !trace_bind. cbn [lift emit trace outcome fst snd app].
    rewrite trace_bind. reflexivity.
  - rewrite !outcome_bind. cbn [lift emit trace outcome fst snd].
    rewrite outcome_bind. reflexivity.
Qed.
End AssemblerFacts.

Lemma search_outcome (W : World) (self : BraveSearch) (query : option string)
    (output_type : output_type_t) (filter : filter_input) (skip top : Z)
    (include_total_count : bool) :
  let options := SearchOptions.Build filter skip top include_total_count in
  outcome (search W self query output_type filter skip top include_total_count)
  = match outcome (_inner_search W self query options) with
    | Ok r => Ok (KernelSearchResults.Build (select_results output_type r)
                    (_get_total_count r options) (_get_metadata r))
    | Raise e => Raise e
    end.
Proof.
  cbn zeta. unfold search. rewrite outcome_bind. reflexivity.
Qed.

Lemma search_trace (W : World) (self : BraveSearch) (query : option string)
    (output_type : output_type_t) (filter : filter_input) (skip top : Z)
    (include_total_count : bool) :
  trace (search W self query output_type filter skip top include_total_count)
  = trace (_inner_search W self query
             (SearchOptions.Build filter skip top include_total_count)).
Proof.
  unfold search. rewrite trace_bind.
  destruct (outcome _); cbn; apply app_nil_r.
Qed.

Lemma successful_pairs_app (W : World) (l1 l2 : list filter_expr) :
  successful_pairs W (l1 ++ l2) = successful_pairs W l1 ++ successful_pairs W l2.
Proof.
  unfold successful_pairs. rewrite map_app, concat_app. reflexivity.
Qed.

Lemma fold_pairs_lookup (pairs : list (string * string))
    (base : gmap string pyval) (field : string) :
  fold_pairs base pairs !! field =
  match last_value field pairs with
  | Some v => Some (PyStr v)
  | None => base !! field
  end.
Proof.
  induction pairs as [|[k v] pairs IH] using rev_ind; [reflexivity|].
  unfold fold_pairs, last_value in *.
  rewrite fold_left_app, filter_app. cbn [fold_left].
  rewrite filter_cons, filter_nil. cbn [fst].
  destruct (decide (k = field)) as [->|Hne].
  - rewrite last_snoc. cbn [snd]. apply lookup_insert_eq.
  - rewrite app_nil_r, lookup_insert_ne by exact Hne. exact IH.
Qed.

Lemma allowed_elem (valid_parameters : list string) (field : string) :
  field ∈ valid_parameters -> allowed valid_parameters field = true.
Proof.
  intros H. unfold allowed. apply existsb_exists.
  exists field. split; [apply list_elem_of_In; exact H|apply String.eqb_refl].
Qed.

(** C1: with a sequence of expressions as the filter, the request builder
    never raises: every expression is handed to the parser in order, each
    failure leaves exactly one warning and nothing else, and the resulting
    mapping is the left-to-right fold, over the base parameters, of the pairs
    of the expressions that parsed.  An expression that fails contributes
    nothing and takes nothing away, and the search succeeds whenever the
    transport does. *)
Theorem failed_filter_is_skipped (W : World) (query : option string)
    (options : SearchOptions.t) (fs : list filter_expr) :
  SearchOptions.filter options = FilterList fs ->
  _build_request_parameters W query options =
    (concat (map (filter_events W) fs),
     Ok (fold_pairs (base_params query options) (successful_pairs W fs))) /\
  filter (fun ev => is_parse ev = true)
         (trace (_build_request_parameters W query options))
    = map EvParseFilter fs /\
  (forall l1 f l2 exc,
     fs = l1 ++ f :: l2 ->
     outcome (_parse_filter_lambda W f) = Raise exc ->
     EvLog WARNING (FailedToParseFilter f exc)
       ∈ trace (_build_request_parameters W query options) /\
     outcome (_build_request_parameters W query options) =
     Ok (fold_pairs (base_params query options)
           (successful_pairs W (l1 ++ l2)))) /\
  (forall self output_type r,
     _validate_options options = Ok tt ->
     outcome (http_call W DEFAULT_URL (headers W self)
                (fold_pairs (base_params query options)
                   (successful_pairs W fs))) = Ok r ->
     outcome (search W self query output_type (FilterList fs)
                (SearchOptions.skip options) (SearchOptions.top options)
                (SearchOptions.include_total_count options))
     = Ok (KernelSearchResults.Build (select_results output_type r)
             (_get_total_count r options) (_get_metadata r))).
Proof.
  intros Hf.
  assert (Hn : normalize (SearchOptions.filter options) = fs).
  { rewrite Hf. unfold normalize; destruct fs; reflexivity. }
  assert (Hb : _build_request_parameters W query options =
               (concat (map (filter_events W) fs),
                Ok (fold_pairs (base_params query options)
                      (successful_pairs W fs)))).
  { rewrite _build_request_parameters_spec. unfold request_params.
    rewrite Hn. reflexivity. }
  split; [exact Hb|]. rewrite Hb. cbn [trace outcome fst snd].
  split; [|split].
  - clear. induction fs as [|f fs IH]; [reflexivity|].
    cbn [map concat]. rewrite filter_app, IH.
    unfold filter_events at 1.
    destruct (outcome (_parse_filter_lambda W f)); reflexivity.
  - intros l1 f l2 exc -> Hexc. split.
    + rewrite map_app, concat_app. cbn [map concat].
      apply elem_of_app. right. apply elem_of_app. left.
      unfold filter_events. rewrite Hexc. set_solver.
    + rewrite !successful_pairs_app.
      unfold successful_pairs at 2. cbn [map concat].
      unfold parsed_pairs at 1. rewrite Hexc. reflexivity.
  - intros self ot r Hv Hr.
    rewrite search_outcome. cbn zeta.
    replace (SearchOptions.Build (FilterList fs) (SearchOptions.skip options)
               (SearchOptions.top options)
               (SearchOptions.include_total_count options)) with options
      by (destruct options; cbn in *; congruence).
    rewrite (_inner_search_valid W self query options Hv).
    cbn [outcome snd]. rewrite outcome_try_except.
    unfold request_params. rewrite Hn, Hr. reflexivity.
Qed.

Lemma failed_filter_is_skipped_witness :
  let fs := [FStr "country or units"; FStr Sample.country_in_a_b_text;
             FCallable (Callable "unknown"); FCallable (Callable "by_units")] in
  let options := SearchOptions.Build (FilterList fs) 0 5 false in
  outcome (_build_request_parameters Sample.world (Some "cats") options) =
  Ok (fold_pairs (base_params (Some "cats") options)
        [("country", "a"); ("country", "b"); ("units", "5")]) /\
  length (filter (fun ev => is_warning ev = true)
            (trace (_build_request_parameters Sample.world (Some "cats")
                      options))) = 2%nat.
Proof.
  cbn zeta.
  pose proof (failed_filter_is_skipped Sample.world (Some "cats")
                (SearchOptions.Build
                   (FilterList
                      [FStr "country or units"; FStr Sample.country_in_a_b_text;
                       FCallable (Callable "unknown");
                       FCallable (Callable "by_units")]) 0 5 false)
                _ eq_refl) as (Hb & _).
  rewrite Hb. split; reflexivity.
Defined.

(** C4: the assembled mapping is the left-to-right fold of the parsed
    pairs, within one expression and across expressions, so a field maps to
    the value of its last pair (and to its base value when it has none);
    parsing [field in ["a","b"]] for an allowed field yields the pairs
    (field, "a") then (field, "b"), and the mapping assembled from that
    expression maps field to "b". *)
Theorem later_pairs_overwrite (W : World) (query : option string)
    (options : SearchOptions.t) :
  (exists m,
     outcome (_build_request_parameters W query options) = Ok m /\
     m = fold_pairs (base_params query options)
           (successful_pairs W (normalize (SearchOptions.filter options))) /\
     forall field,
       m !! field =
       match last_value field
               (successful_pairs W (normalize (SearchOptions.filter options)))
       with
       | Some v => Some (PyStr v)
       | None => base_params query options !! field
       end) /\
  (forall field lhs,
     field ∈ QUERY_PARAMETERS ->
     field_of None lhs = Some field ->
     let node := ast.Compare lhs [ast.In]
                   [ast.List_ [ast.Constant (ast.CStr "a");
                               ast.Constant (ast.CStr "b")]] in
     visit QUERY_PARAMETERS node = Ok [[(field, "a")]; [(field, "b")]] /\
     forall text,
       text <> "" ->
       ast_parse W text = Ok node ->
       SearchOptions.filter options = FilterOne (FStr text) ->
       outcome (_parse_filter_lambda W (FStr text)) =
         Ok [[(field, "a")]; [(field, "b")]] /\
       exists m,
         outcome (_build_request_parameters W query options) = Ok m /\
         m !! field = Some (PyStr "b")).
Proof.
  split.
  - eexists. rewrite _build_request_parameters_spec. cbn [outcome snd].
    split; [reflexivity|]. split; [reflexivity|].
    intros field. apply fold_pairs_lookup.
  - intros field lhs Hin Hlhs node.
    assert (Hvisit : visit QUERY_PARAMETERS node =
                     Ok [[(field, "a")]; [(field, "b")]]).
    { subst node. cbn [visit visit_body literals_of literal_of].
      rewrite Hlhs, (allowed_elem _ _ Hin). reflexivity. }
    split; [exact Hvisit|].
    intros text Hne Hparse Hfilter.
    assert (Hp : outcome (_parse_filter_lambda W (FStr text)) =
                 Ok [[(field, "a")]; [(field, "b")]]).
    { unfold _parse_filter_lambda. rewrite !outcome_bind.
      cbn [emit lift outcome snd]. rewrite Hparse. exact Hvisit. }
    split; [exact Hp|].
    eexists. rewrite _build_request_parameters_spec. cbn [outcome snd].
    split; [reflexivity|].
    unfold request_params. rewrite fold_pairs_lookup, Hfilter.
    unfold normalize. cbn [filter_falsy as_list].
    destruct text as [|c text]; [congruence|]. cbn [truthy negb].
    unfold successful_pairs, parsed_pairs. cbn [map concat].
    rewrite Hp. cbn [concat app]. unfold last_value.
    rewrite !filter_cons, filter_nil. cbn [fst snd].
    destruct (decide (field = field)); [reflexivity|congruence].
Qed.

Lemma later_pairs_overwrite_witness :
  let options :=
    SearchOptions.Build (FilterOne (FStr Sample.country_in_a_b_text)) 0 5 false in
  outcome (_parse_filter_lambda Sample.world (FStr Sample.country_in_a_b_text))
    = Ok [[("country", "a")]; [("country", "b")]] /\
  exists m,
    outcome (_build_request_parameters Sample.world (Some "cats") options)
      = Ok m /\
    m !! "country" = Some (PyStr "b").
Proof.
  cbn zeta.
  refine (proj2 (proj2 (later_pairs_overwrite Sample.world (Some "cats")
                          (SearchOptions.Build
                             (FilterOne (FStr Sample.country_in_a_b_text))
                             0 5 false))
                   "country" (ast.Name "country") _ eq_refl)
            Sample.country_in_a_b_text _ eq_refl eq_refl).
  - unfold QUERY_PARAMETERS. set_solver.
  - discriminate.
Defined.

(** C6: with query "cats", top 5, skip 0 and no filter the parameters are
    exactly {q: "cats", count: 5, offset: 0}; for every query and options
    whose filter is absent or empty they are exactly {q: query or the empty
    string, count: top, offset: skip}, with no other key, and nothing is
    parsed or logged. *)
Theorem no_filter_base_parameters (W : World) (query : option string)
    (options : SearchOptions.t) :
  (filter_falsy (SearchOptions.filter options) = true ->
   _build_request_parameters W query options =
     ([], Ok {[ "q" := PyStr (match query with
                              | Some (String c s) => String c s
                              | _ => ""
                              end);
                "count" := PyInt (SearchOptions.top options);
                "offset" := PyInt (SearchOptions.skip options) ]}) /\
   forall m,
     outcome (_build_request_parameters W query options) = Ok m ->
     dom m = ({[ "q"; "count"; "offset" ]} : gset string)) /\
  _build_request_parameters W (Some "cats")
    (SearchOptions.Build FilterNone 0 5 false) =
    ([], Ok {[ "q" := PyStr "cats"; "count" := PyInt 5; "offset" := PyInt 0 ]}).
Proof.
  split; [|reflexivity].
  intros Hf.
  assert (Hb : _build_request_parameters W query options =
     ([], Ok {[ "q" := PyStr (match query with
                              | Some (String c s) => String c s
                              | _ => ""
                              end);
                "count" := PyInt (SearchOptions.top options);
                "offset" := PyInt (SearchOptions.skip options) ]})).
  { unfold _build_request_parameters. rewrite Hf.
    unfold base_params. destruct query as [[|c s]|]; reflexivity. }
  split; [exact Hb|].
  intros m. rewrite Hb. cbn [outcome snd]. intros [= <-].
  rewrite !dom_insert_L, dom_singleton_L. set_solver.
Qed.

Lemma no_filter_base_parameters_witness :
  _build_request_parameters Sample.world None
    (SearchOptions.Build (FilterList []) 3 7 true) =
    ([], Ok {[ "q" := PyStr ""; "count" := PyInt 7; "offset" := PyInt 3 ]}).
Proof.
  exact (proj1 (proj1 (no_filter_base_parameters Sample.world None
                         (SearchOptions.Build (FilterList []) 3 7 true))
                  eq_refl)).
Defined.

(* --------------------------------------------------------------------- *)
(* Transport                                                              *)
(* --------------------------------------------------------------------- *)

(** The three places the [try] block can raise from: the request itself,
    the status check and the decoding of the body. *)
Lemma http_call_outcome (W : World) (url : string)
    (hdrs : gmap string string) (params : gmap string pyval) :
  outcome (http_call W url hdrs params) =
  match client_get W url hdrs params with
  | Raise e => Raise e
  | Ok response =>
      match raise_for_status W response with
      | Raise e => Raise e
      | Ok _ => model_validate_json W (text response)
      end
  end.
Proof.
  unfold http_call. rewrite !outcome_bind. cbn [emit lift outcome snd].
  destruct (client_get W url hdrs params) as [response|e]; [|reflexivity].
  rewrite outcome_bind. cbn [lift outcome snd]. reflexivity.
Qed.

(** The requests a call of [_inner_search] sends: one when the options are
    valid, none otherwise. *)
Lemma _inner_search_requests (W : World) (self : BraveSearch)
    (query : option string) (options : SearchOptions.t) :
  filter (fun ev => is_http_get ev = true)
         (trace (_inner_search W self query options)) =
  match _validate_options options with
  | Ok _ => [EvHttpGet 5 DEFAULT_URL (headers W self)
               (request_params W query options)]
  | Raise _ => []
  end.
Proof.
  destruct (_validate_options options) as [[]|e] eqn:Hv.
  - rewrite (_inner_search_valid W self query options Hv).
    cbn [trace fst]. rewrite filter_cons. cbn [is_http_get].
    destruct (decide (false = true)) as [|_]; [discriminate|].
    rewrite filter_app.
    replace (filter (fun ev => is_http_get ev = true)
               (concat (map (filter_events W)
                          (normalize (SearchOptions.filter options)))))
      with (@nil event).
    2:{ induction (normalize (SearchOptions.filter options)) as [|f fs IH];
          [reflexivity|].
        cbn [map concat]. rewrite filter_app, <- IH.
        unfold filter_events.
        destruct (outcome (_parse_filter_lambda W f)); reflexivity. }
    cbn [app]. rewrite filter_cons. cbn [is_http_get].
    destruct (decide (false = true)) as [|_]; [discriminate|].
    rewrite trace_try_except, filter_app, http_call_trace.
    destruct (outcome (http_call _ _ _ _)) as [r|ex].
    + reflexivity.
    + rewrite on_transport_error_no_get. reflexivity.
  - rewrite (_inner_search_invalid W self query options e Hv). reflexivity.
Qed.

(** C7: when the options are valid and the network call fails with an
    exception [ex] (raised by the request, by the status check or by the
    decoding), [_inner_search] and [search] raise one
    ServiceInvalidRequestError whose cause is [ex]; exactly one request was
    sent, so nothing was retried. *)
Theorem transport_failure_is_wrapped (W : World) (self : BraveSearch)
    (query : option string) (options : SearchOptions.t) (ex : exception) :
  _validate_options options = Ok tt ->
  outcome (http_call W DEFAULT_URL (headers W self)
             (request_params W query options)) = Raise ex ->
  let msg :=
    match exc_class ex with
    | HTTPStatusError => "Failed to get search results."
    | RequestError => "A client error occurred while getting search results."
    | _ => "An unexpected error occurred while getting search results."
    end in
  let err := MkException ServiceInvalidRequestError msg (Some ex) in
  outcome (_inner_search W self query options) = Raise err /\
  (forall output_type,
     outcome (search W self query output_type (SearchOptions.filter options)
                (SearchOptions.skip options) (SearchOptions.top options)
                (SearchOptions.include_total_count options)) = Raise err) /\
  exc_cause err = Some ex /\
  filter (fun ev => is_http_get ev = true)
         (trace (_inner_search W self query options)) =
    [EvHttpGet 5 DEFAULT_URL (headers W self) (request_params W query options)].
Proof.
  intros Hv Hex msg err.
  assert (Hin : outcome (_inner_search W self query options) = Raise err).
  { rewrite (_inner_search_valid W self query options Hv).
    cbn [outcome snd]. rewrite outcome_try_except, Hex.
    subst err msg. unfold on_transport_error.
    destruct (exc_class ex); reflexivity. }
  split; [exact Hin|]. split; [|split; [reflexivity|]].
  - intros ot. rewrite search_outcome. cbn zeta.
    replace (SearchOptions.Build _ _ _ _) with options
      by (destruct options; reflexivity).
    rewrite Hin. reflexivity.
  - rewrite _inner_search_requests, Hv. reflexivity.
Qed.

Lemma transport_failure_is_wrapped_witness :
  let down := MkException HTTPStatusError "server error" None in
  let refused := MkException RequestError "connection refused" None in
  let invalid :=
    MkException (OtherException "ValidationError") "invalid JSON" None in
  let options := SearchOptions.Build FilterNone 0 5 false in
  outcome (_inner_search Sample.world Sample.connector (Some "down") options) =
    Raise (MkException ServiceInvalidRequestError
             "Failed to get search results." (Some down)) /\
  outcome (_inner_search Sample.world Sample.connector (Some "dogs") options) =
    Raise (MkException ServiceInvalidRequestError
             "A client error occurred while getting search results."
             (Some refused)) /\
  outcome (_inner_search Sample.world Sample.connector (Some "odd") options) =
    Raise (MkException ServiceInvalidRequestError
             "An unexpected error occurred while getting search results."
             (Some invalid)).
Proof.
  cbn zeta. split; [|split].
  - exact (proj1 (transport_failure_is_wrapped Sample.world Sample.connector
                    (Some "down") (SearchOptions.Build FilterNone 0 5 false)
                    _ eq_refl eq_refl)).
  - exact (proj1 (transport_failure_is_wrapped Sample.world Sample.connector
                    (Some "dogs") (SearchOptions.Build FilterNone 0 5 false)
                    _ eq_refl eq_refl)).
  - exact (proj1 (transport_failure_is_wrapped Sample.world Sample.connector
                    (Some "odd") (SearchOptions.Build FilterNone 0 5 false)
                    _ eq_refl eq_refl)).
Defined.

(** The headers of every request, whatever the world and the key. *)
Lemma headers_names (W : World) (self : BraveSearch) :
  headers W self =
    {[ "user_agent" := SEMANTIC_KERNEL_USER_AGENT W;
       "X-Subscription-Token" := get_secret_value (api_key (settings self)) ]} /\
  dom (headers W self) =
    ({[ "X-Subscription-Token"; "user_agent" ]} : gset string) /\
  headers W self !! "user-agent" = None.
Proof.
  unfold headers. split; [reflexivity|]. split; [|reflexivity].
  rewrite !dom_insert_L, dom_empty_L. set_solver.
Qed.

(** C8, at query "cats", top 5, skip 0, no filter, key "secret": the one
    request goes to the fixed URL with the key under X-Subscription-Token,
    but the product identifier is sent under the name user_agent; no header
    named user-agent is set. *)
Theorem product_identifier_sent_as_user_agent_underscore :
  exists hdrs params,
    filter (fun ev => is_http_get ev = true)
      (trace (search Sample.world Sample.connector (Some "cats") TyStr
                FilterNone 0 5 false))
      = [EvHttpGet 5 "https://api.search.brave.com/res/v1/web/search"
           hdrs params] /\
    hdrs !! "X-Subscription-Token" = Some "secret" /\
    hdrs !! "user_agent" = Some "semantic-kernel-python/1.0" /\
    hdrs !! "user-agent" = None /\
    dom hdrs = ({[ "X-Subscription-Token"; "user_agent" ]} : gset string).
Proof.
  exists (headers Sample.world Sample.connector),
         (request_params Sample.world (Some "cats")
            (SearchOptions.Build FilterNone 0 5 false)).
  rewrite search_trace, _inner_search_requests.
  split; [reflexivity|]. split; [reflexivity|]. split; [reflexivity|].
  split; [reflexivity|].
  apply headers_names.
Qed.

(* --------------------------------------------------------------------- *)
(* Output shapes                                                          *)
(* --------------------------------------------------------------------- *)

(** C9: for every output type that is neither [str] nor
    [TextSearchResult] (the literal "Any" and any other object alike) the
    result sequence is the raw web-page records, and [search] raises exactly
    when [_inner_search] does, with the same exception: the output type
    itself never causes an error. *)
Theorem other_output_types_get_raw_pages (W : World) (self : BraveSearch)
    (query : option string) (output_type : output_type_t)
    (filter : filter_input) (skip top : Z) (include_total_count : bool) :
  output_type <> TyStr ->
  output_type <> TyTextSearchResult ->
  let options := SearchOptions.Build filter skip top include_total_count in
  (forall r, select_results output_type r = WebPages (_get_brave_web_pages r)) /\
  (forall r,
     outcome (_inner_search W self query options) = Ok r ->
     outcome (search W self query output_type filter skip top
                include_total_count)
     = Ok (KernelSearchResults.Build (WebPages (_get_brave_web_pages r))
             (_get_total_count r options) (_get_metadata r))) /\
  (forall e,
     outcome (search W self query output_type filter skip top
                include_total_count) = Raise e <->
     outcome (_inner_search W self query options) = Raise e).
Proof.
  intros Hs Ht options.
  assert (Hsel : forall r,
            select_results output_type r = WebPages (_get_brave_web_pages r)).
  { intros r. unfold select_results.
    destruct output_type; cbn; congruence. }
  split; [exact Hsel|]. split.
  - intros r Hr. rewrite search_outcome. cbn zeta. fold options.
    rewrite Hr, Hsel. reflexivity.
  - intros e. rewrite search_outcome. cbn zeta. fold options.
    destruct (outcome (_inner_search W self query options)); split; congruence.
Qed.

Lemma other_output_types_get_raw_pages_witness :
  outcome (search Sample.world Sample.connector (Some "cats") LitAny
             FilterNone 0 5 true)
  = Ok (KernelSearchResults.Build
          (WebPages [Sample.page (Some "Cats") (Some "About cats");
                     Sample.page (Some "Dogs") None])
          (Some 2) (_get_metadata Sample.two_pages)) /\
  select_results (TyOther "dict") Sample.two_pages
  = WebPages [Sample.page (Some "Cats") (Some "About cats");
              Sample.page (Some "Dogs") None].
Proof.
  split.
  - refine (proj1 (proj2 (other_output_types_get_raw_pages Sample.world
                            Sample.connector (Some "cats") LitAny FilterNone
                            0 5 true _ _)) Sample.two_pages eq_refl);
      discriminate.
  - refine (proj1 (other_output_types_get_raw_pages Sample.world
                     Sample.connector (Some "cats") (TyOther "dict")
                     FilterNone 0 5 true _ _) Sample.two_pages);
      discriminate.
Defined.

(* ===================================================================== *)
(* Further properties of the connector                                    *)
(* ===================================================================== *)

(* --------------------------------------------------------------------- *)
(* Response mapper                                                        *)
(* --------------------------------------------------------------------- *)

(** X1: the metadata mapping has exactly the five keys original, altered,
    spellcheck_off, show_strict_warning and country, whatever the query
    context holds; each carries the value of the query context, and a
    missing one is None, except altered, which is then the empty string. *)
Theorem metadata_has_exactly_five_keys (response : BraveSearchResponse.t) :
  let qc := BraveSearchResponse.query_context response in
  let md := _get_metadata response in
  dom md = ({[ "original"; "altered"; "spellcheck_off";
               "show_strict_warning"; "country" ]} : gset string) /\
  md !! "original" = Some (default PyNone (qc !! "original")) /\
  md !! "altered" = Some (default (PyStr "") (qc !! "altered")) /\
  md !! "spellcheck_off" = Some (default PyNone (qc !! "spellcheck_off")) /\
  md !! "show_strict_warning" =
    Some (default PyNone (qc !! "show_strict_warning")) /\
  md !! "country" = Some (default PyNone (qc !! "country")).
Proof.
  cbn zeta. unfold _get_metadata, dict_get. split.
  - rewrite !dom_insert_L, dom_empty_L. set_solver.
  - repeat split;
      destruct (BraveSearchResponse.query_context response !! _); reflexivity.
Qed.

(** X2: the three result shapes are aligned: the text-search records are
    the raw web pages mapped to (title, description, url), one per page and
    in order, and the strings are the values of those records with an absent
    or empty value replaced by the empty string. *)
Theorem result_shapes_are_aligned (response : BraveSearchResponse.t) :
  _get_text_search_results response =
    map (fun web_page =>
           TextSearchResult.Build (BraveWebPage.title web_page)
             (BraveWebPage.description web_page) (BraveWebPage.url web_page))
        (_get_brave_web_pages response) /\
  _get_result_strings response =
    map (fun r => py_or (of_opt (TextSearchResult.value r)) (PyStr ""))
        (_get_text_search_results response) /\
  length (_get_text_search_results response) =
    length (_get_brave_web_pages response) /\
  length (_get_result_strings response) =
    length (_get_brave_web_pages response).
Proof.
  unfold _get_text_search_results, _get_result_strings, _get_brave_web_pages.
  destruct (BraveSearchResponse.web_pages response) as [wps|].
  - split; [reflexivity|]. split.
    + rewrite map_map. reflexivity.
    + rewrite !length_map. split; reflexivity.
  - repeat split.
Qed.

Lemma select_results_length (output_type : output_type_t)
    (response : BraveSearchResponse.t) :
  result_seq_length (select_results output_type response) =
  length (_get_brave_web_pages response).
Proof.
  unfold select_results, _get_result_strings, _get_text_search_results,
    _get_brave_web_pages.
  destruct (is_str output_type); [|destruct (is_TextSearchResult output_type)];
    destruct (BraveSearchResponse.web_pages response);
    cbn [result_seq_length]; rewrite ?length_map; reflexivity.
Qed.

(** X3: in what [search] returns, a total count that is present is the
    number of items of the result sequence, whichever shape was asked for;
    and no count is present unless it was requested. *)
Theorem total_count_is_number_of_results (W : World) (self : BraveSearch)
    (query : option string) (output_type : output_type_t)
    (filter : filter_input) (skip top : Z) (include_total_count : bool)
    (k : KernelSearchResults.t) :
  outcome (search W self query output_type filter skip top include_total_count)
    = Ok k ->
  (forall n,
     KernelSearchResults.total_count k = Some n ->
     n = Z.of_nat (result_seq_length (KernelSearchResults.results k))) /\
  (include_total_count = false -> KernelSearchResults.total_count k = None).
Proof.
  rewrite search_outcome. cbn zeta.
  destruct (outcome (_inner_search _ _ _ _)) as [r|e]; [|discriminate].
  intros [= <-]. cbn [KernelSearchResults.total_count KernelSearchResults.results].
  rewrite select_results_length.
  unfold _get_total_count, _get_brave_web_pages.
  cbn [SearchOptions.include_total_count].
  split.
  - intros n. destruct include_total_count; [|discriminate].
    destruct (BraveSearchResponse.web_pages r); [|discriminate].
    intros [= <-]. reflexivity.
  - intros ->. reflexivity.
Qed.

Lemma total_count_is_number_of_results_witness :
  2 = Z.of_nat (result_seq_length (Strings [PyStr "About cats"; PyStr ""])).
Proof.
  exact (proj1 (total_count_is_number_of_results Sample.world Sample.connector
                  (Some "cats") TyStr FilterNone 0 5 true _ eq_refl)
           2 eq_refl).
Defined.

(* --------------------------------------------------------------------- *)
(* Errors                                                                 *)
(* --------------------------------------------------------------------- *)



(** X5: the count is checked before the offset, and each bound has its
    own message: top <= 0 and top >= 21 raise the two count messages
    whatever skip is; the two offset messages are raised only when top is
    within bounds. *)
Theorem validation_checks_count_before_offset (options : SearchOptions.t) :
  (SearchOptions.top options <= 0 ->
   _validate_options options =
   Raise (MkException ServiceInvalidRequestError
            "count value must be greater than 0." None)) /\
  (SearchOptions.top options >= 21 ->
   _validate_options options =
   Raise (MkException ServiceInvalidRequestError
            "count value must be less than 21." None)) /\
  (1 <= SearchOptions.top options <= 20 ->
   SearchOptions.skip options < 0 ->
   _validate_options options =
   Raise (MkException ServiceInvalidRequestError
            "offset must be greater than or equal to 0." None)) /\
  (1 <= SearchOptions.top options <= 20 ->
   SearchOptions.skip options > 9 ->
   _validate_options options =
   Raise (MkException ServiceInvalidRequestError
            "offset must be less than 10." None)).
Proof.
  unfold _validate_options.
  destruct (Z.leb_spec (SearchOptions.top options) 0);
    destruct (Z.geb_spec (SearchOptions.top options) 21);
    destruct (Z.ltb_spec (SearchOptions.skip options) 0);
    destruct (Z.gtb_spec (SearchOptions.skip options) 9);
    repeat split; intros; try lia; reflexivity.
Qed.

Lemma validation_checks_count_before_offset_witness :
  _validate_options (SearchOptions.Build FilterNone (-1) 0 false) =
    Raise (MkException ServiceInvalidRequestError
             "count value must be greater than 0." None) /\
  _validate_options (SearchOptions.Build FilterNone 10 21 false) =
    Raise (MkException ServiceInvalidRequestError
             "count value must be less than 21." None) /\
  _validate_options (SearchOptions.Build FilterNone (-1) 20 false) =
    Raise (MkException ServiceInvalidRequestError
             "offset must be greater than or equal to 0." None) /\
  _validate_options (SearchOptions.Build FilterNone 10 1 false) =
    Raise (MkException ServiceInvalidRequestError
             "offset must be less than 10." None).
Proof.
  split; [|split; [|split]].
  - apply (proj1 (validation_checks_count_before_offset
                    (SearchOptions.Build FilterNone (-1) 0 false))).
    simpl; lia.
  - apply (proj1 (proj2 (validation_checks_count_before_offset
                           (SearchOptions.Build FilterNone 10 21 false)))).
    simpl; lia.
  - apply (proj1 (proj2 (proj2 (validation_checks_count_before_offset
                                  (SearchOptions.Build FilterNone (-1) 20 false)))));
      simpl; lia.
  - apply (proj2 (proj2 (proj2 (validation_checks_count_before_offset
                                  (SearchOptions.Build FilterNone 10 1 false)))));
      simpl; lia.
Defined.

(* --------------------------------------------------------------------- *)
(* The order of effects                                                   *)
(* --------------------------------------------------------------------- *)

Lemma on_transport_error_trace {A} (ex : exception) :
  trace (@on_transport_error A ex) = [EvLog ERROR (error_record ex)].
Proof.
  unfold on_transport_error, error_record.
  destruct (exc_class ex); reflexivity.
Qed.

(** Everything a call with valid options does, in order. *)
Lemma _inner_search_valid_trace (W : World) (self : BraveSearch)
    (query : option string) (options : SearchOptions.t) :
  _validate_options options = Ok tt ->
  trace (_inner_search W self query options) =
    (EvLog INFO (ReceivedRequest (SearchOptions.top options)
                                 (SearchOptions.skip options)) ::
     concat (map (filter_events W) (normalize (SearchOptions.filter options))))
    ++ [EvLog INFO (SendingGetRequest DEFAULT_URL);
        EvHttpGet 5 DEFAULT_URL (headers W self)
          (request_params W query options)]
    ++ match outcome (http_call W DEFAULT_URL (headers W self)
                        (request_params W query options)) with
       | Ok _ => []
       | Raise ex => [EvLog ERROR (error_record ex)]
       end.
Proof.
  intros Hv. rewrite (_inner_search_valid W self query options Hv).
  cbn [trace fst]. rewrite trace_try_except, http_call_trace.
  destruct (outcome (http_call _ _ _ _)); [reflexivity|].
  rewrite on_transport_error_trace. reflexivity.
Qed.

Lemma filter_events_no_get (W : World) (fs : list filter_expr) :
  filter (fun ev => is_http_get ev = true) (concat (map (filter_events W) fs))
  = [].
Proof.
  induction fs as [|f fs IH]; [reflexivity|].
  cbn [map concat]. rewrite filter_app, IH. unfold filter_events.
  destruct (outcome (_parse_filter_lambda W f)); reflexivity.
Qed.

Lemma filter_events_parse (W : World) (fs : list filter_expr) :
  filter (fun ev => is_parse ev = true) (concat (map (filter_events W) fs))
  = map EvParseFilter fs.
Proof.
  induction fs as [|f fs IH]; [reflexivity|].
  cbn [map concat]. rewrite filter_app, IH. unfold filter_events.
  destruct (outcome (_parse_filter_lambda W f)); reflexivity.
Qed.

(** X6: with valid options, when the client answers, the status check
    passes and the body decodes to [r], [search] returns the results of [r]
    in the shape asked for, with its total count and metadata; no error is
    logged and the request is the last thing that happened. *)
Theorem search_returns_decoded_response (W : World) (self : BraveSearch)
    (query : option string) (output_type : output_type_t)
    (options : SearchOptions.t) (response : HttpResponse)
    (r : BraveSearchResponse.t) :
  let call :=
    search W self query output_type (SearchOptions.filter options)
      (SearchOptions.skip options) (SearchOptions.top options)
      (SearchOptions.include_total_count options) in
  let request :=
    EvHttpGet 5 DEFAULT_URL (headers W self) (request_params W query options) in
  _validate_options options = Ok tt ->
  client_get W DEFAULT_URL (headers W self) (request_params W query options)
    = Ok response ->
  raise_for_status W response = Ok tt ->
  model_validate_json W (text response) = Ok r ->
  outcome call =
    Ok (KernelSearchResults.Build (select_results output_type r)
          (_get_total_count r options) (_get_metadata r)) /\
  filter (fun ev => is_error ev = true) (trace call) = [] /\
  last (trace call) = Some request.
Proof.
  intros call request Hv Hget Hstatus Hjson.
  assert (Hcall : outcome (http_call W DEFAULT_URL (headers W self)
                             (request_params W query options)) = Ok r).
  { rewrite http_call_outcome, Hget, Hstatus. exact Hjson. }
  assert (Hopt : SearchOptions.Build (SearchOptions.filter options)
                   (SearchOptions.skip options) (SearchOptions.top options)
                   (SearchOptions.include_total_count options) = options)
    by (destruct options; reflexivity).
  subst call. split; [|split].
  - rewrite search_outcome. cbn zeta. rewrite Hopt.
    rewrite (_inner_search_valid W self query options Hv).
    cbn [outcome snd]. rewrite outcome_try_except, Hcall. reflexivity.
  - rewrite search_trace, Hopt, (_inner_search_valid_trace _ _ _ _ Hv), Hcall.
    rewrite app_nil_r, filter_app. cbn [app].
    rewrite filter_cons. cbn [is_error].
    destruct (decide (false = true)) as [|_]; [discriminate|].
    replace (filter (fun ev => is_error ev = true)
               (concat (map (filter_events W)
                          (normalize (SearchOptions.filter options)))))
      with (@nil event); [reflexivity|].
    induction (normalize (SearchOptions.filter options)) as [|f fs IH];
      [reflexivity|].
    cbn [map concat]. rewrite filter_app, <- IH. unfold filter_events.
    destruct (outcome (_parse_filter_lambda W f)); reflexivity.
  - rewrite search_trace, Hopt, (_inner_search_valid_trace _ _ _ _ Hv), Hcall.
    rewrite app_nil_r, last_app. reflexivity.
Qed.

Lemma search_returns_decoded_response_witness :
  let call :=
    search Sample.world Sample.connector (Some "cats") TyTextSearchResult
      FilterNone 0 5 true in
  outcome call =
    Ok (KernelSearchResults.Build
          (TextSearchResults
             [TextSearchResult.Build (Some "Cats") (Some "About cats")
                (Some "https://example.org");
              TextSearchResult.Build (Some "Dogs") None
                (Some "https://example.org")])
          (Some 2) (_get_metadata Sample.two_pages)) /\
  filter (fun ev => is_error ev = true) (trace call) = [].
Proof.
  cbn zeta.
  destruct (search_returns_decoded_response Sample.world Sample.connector
              (Some "cats") TyTextSearchResult
              (SearchOptions.Build FilterNone 0 5 true)
              {| status_code := 200; text := "two pages" |} Sample.two_pages
              eq_refl eq_refl eq_refl eq_refl) as (Hout & Herr & _).
  split; [exact Hout|exact Herr].
Defined.

(** X7: with valid options every filter expression is parsed before the
    request is sent, exactly one request is sent, even when every expression
    failed to parse, and after it nothing happens but the logging of one
    error record when the call failed. *)
Theorem filters_are_parsed_before_the_request (W : World) (self : BraveSearch)
    (query : option string) (options : SearchOptions.t) :
  _validate_options options = Ok tt ->
  exists before after,
    trace (_inner_search W self query options) =
      before ++ EvHttpGet 5 DEFAULT_URL (headers W self)
                  (request_params W query options) :: after /\
    filter (fun ev => is_parse ev = true) before =
      map EvParseFilter (normalize (SearchOptions.filter options)) /\
    filter (fun ev => is_http_get ev = true) before = [] /\
    after = match outcome (_inner_search W self query options) with
            | Ok _ => []
            | Raise e =>
                match exc_cause e with
                | Some ex => [EvLog ERROR (error_record ex)]
                | None => []
                end
            end.
Proof.
  intros Hv.
  exists ((EvLog INFO (ReceivedRequest (SearchOptions.top options)
                         (SearchOptions.skip options)) ::
           concat (map (filter_events W)
                     (normalize (SearchOptions.filter options))))
          ++ [EvLog INFO (SendingGetRequest DEFAULT_URL)]).
  eexists. split; [|split; [|split]].
  - rewrite (_inner_search_valid_trace _ _ _ _ Hv).
    rewrite <- !app_assoc. cbn [app]. reflexivity.
  - rewrite filter_app, filter_cons. cbn [is_parse].
    destruct (decide (false = true)) as [|_]; [discriminate|].
    rewrite filter_events_parse. cbn. apply app_nil_r.
  - rewrite filter_app, filter_cons. cbn [is_http_get].
    destruct (decide (false = true)) as [|_]; [discriminate|].
    rewrite filter_events_no_get. reflexivity.
  - rewrite (_inner_search_valid W self query options Hv).
    cbn [outcome snd]. rewrite outcome_try_except.
    destruct (outcome (http_call _ _ _ _)) as [r|ex]; [reflexivity|].
    destruct (@on_transport_error_outcome BraveSearchResponse.t ex)
      as [msg ->].
    reflexivity.
Qed.

Lemma filters_are_parsed_before_the_request_witness :
  exists before after,
    trace (_inner_search Sample.world Sample.connector (Some "down")
             (SearchOptions.Build
                (FilterList [FStr "country or units";
                             FStr Sample.country_in_a_b_text]) 0 5 false)) =
      before ++ EvHttpGet 5 DEFAULT_URL
                  (headers Sample.world Sample.connector)
                  (<["country" := PyStr "b"]>
                     (base_params (Some "down")
                        (SearchOptions.Build FilterNone 0 5 false))) :: after /\
    filter (fun ev => is_parse ev = true) before =
      [EvParseFilter (FStr "country or units");
       EvParseFilter (FStr Sample.country_in_a_b_text)] /\
    after = [EvLog ERROR (FailedToGetResults
                            (MkException HTTPStatusError "server error" None))].
Proof.
  destruct (filters_are_parsed_before_the_request Sample.world
              Sample.connector (Some "down")
              (SearchOptions.Build
                 (FilterList [FStr "country or units";
                              FStr Sample.country_in_a_b_text]) 0 5 false)
              eq_refl) as (before & after & Ht & Hp & _ & Ha).
  exists before, after. split; [exact Ht|]. split; [exact Hp|exact Ha].
Defined.

(* --------------------------------------------------------------------- *)
(* The keys of the request                                                *)
(* --------------------------------------------------------------------- *)

Lemma allowed_inv (valid_parameters : list string) (field : string) :
  allowed valid_parameters field = true -> field ∈ valid_parameters.
Proof.
  unfold allowed. intros H. apply existsb_exists in H as (x & Hin & Heq).
  apply String.eqb_eq in Heq. subst x. apply list_elem_of_In. exact Hin.
Qed.

(** The walk only ever emits fields of the allow-list. *)
Lemma visit_body_allowed (valid_parameters : list string) :
  forall (node : ast.expr) (bound : option string) (ds : list dict_items),
    visit_body valid_parameters bound node = Ok ds ->
    Forall (Forall (fun p => p.1 ∈ valid_parameters)) ds.
Proof.
  fix IH 1. intros node bound ds.
  destruct node as [id|value attr|c|elts|lhs ops comparators|op values
                   |operand|args body|func args];
    cbn [visit_body]; try discriminate.
  - (* a comparison *)
    intros H.
    repeat match type of H with
           | context [match ?x with _ => _ end] =>
               destruct x eqn:?; try discriminate
           end;
      injection H as <-.
    + repeat constructor. cbn. apply allowed_inv; assumption.
    + apply Forall_forall. intros d Hd.
      apply list_elem_of_fmap in Hd as (c' & -> & _).
      repeat constructor. cbn. apply allowed_inv; assumption.
  - (* a conjunction *)
    destruct op; [|discriminate].
    revert ds. induction values as [|v vs IHvs]; intros ds H.
    + injection H as <-. constructor.
    + destruct (visit_body valid_parameters bound v) as [d1|] eqn:Hv;
        [|discriminate].
      match type of H with
      | context [match ?x with _ => _ end] => destruct x as [d2|] eqn:Hvs
      end; [|discriminate].
      injection H as <-. apply Forall_app. split.
      * exact (IH v bound d1 Hv).
      * exact (IHvs d2 eq_refl).
Qed.

Lemma successful_pairs_allowed (W : World) (fs : list filter_expr) :
  Forall (fun p => p.1 ∈ QUERY_PARAMETERS) (successful_pairs W fs).
Proof.
  unfold successful_pairs. induction fs as [|f fs IH]; [constructor|].
  cbn [map concat]. apply Forall_app. split; [|exact IH].
  unfold parsed_pairs.
  destruct (outcome (_parse_filter_lambda W f)) as [ds|e] eqn:Hp;
    [|constructor].
  assert (Hds : Forall (Forall (fun p => p.1 ∈ QUERY_PARAMETERS)) ds).
  { unfold _parse_filter_lambda in Hp. rewrite !outcome_bind in Hp.
    cbn [emit lift outcome snd] in Hp.
    destruct (match f with
              | FStr s => Ok s
              | FCallable c => _
              end) as [src|]; [|discriminate].
    destruct (ast_parse W src) as [node|]; [|discriminate].
    unfold visit in Hp.
    destruct node; try (eapply visit_body_allowed; exact Hp).
    destruct args as [|x [|y args]]; try discriminate.
    eapply visit_body_allowed; exact Hp. }
  clear Hp. induction Hds as [|d ds Hd _ IHds]; [constructor|].
  cbn [concat]. apply Forall_app. split; assumption.
Qed.

Lemma dom_fold_pairs (pairs : list (string * string))
    (base : gmap string pyval) :
  dom (fold_pairs base pairs) = dom base ∪ fields pairs.
Proof.
  unfold fold_pairs, fields. revert base.
  induction pairs as [|[k v] pairs IH]; intros base; cbn [fold_left map].
  - rewrite list_to_set_nil. symmetry. apply union_empty_r_L.
  - rewrite IH, dom_insert_L, list_to_set_cons. cbn [fst].
    rewrite (union_comm_L {[k]} (dom base)). symmetry. apply union_assoc_L.
Qed.

Lemma last_value_absent (field : string) (pairs : list (string * string)) :
  Forall (fun p => p.1 <> field) pairs -> last_value field pairs = None.
Proof.
  intros H. unfold last_value.
  replace (filter (fun p => p.1 = field) pairs) with (@nil (string * string));
    [reflexivity|].
  induction H as [|p pairs Hp _ IH]; [reflexivity|].
  rewrite filter_cons. destruct (decide (p.1 = field)); [contradiction|].
  exact IH.
Qed.

(** X9: the keys of the request are q, count and offset together with
    the fields of the pairs that parsed, and nothing else; those fields are
    all on the allow-list QUERY_PARAMETERS (the check being that of the
    visitor as modelled), so q, count and offset always keep the query, top
    and skip. *)
Theorem request_keys_are_base_or_allowed (W : World) (query : option string)
    (options : SearchOptions.t) :
  exists m,
    outcome (_build_request_parameters W query options) = Ok m /\
    dom m = base_keys ∪
            fields (successful_pairs W
                      (normalize (SearchOptions.filter options))) /\
    dom m ⊆ base_keys ∪ list_to_set QUERY_PARAMETERS /\
    m !! "q" = Some (py_or (of_opt query) (PyStr "")) /\
    m !! "count" = Some (PyInt (SearchOptions.top options)) /\
    m !! "offset" = Some (PyInt (SearchOptions.skip options)).
Proof.
  eexists. rewrite _build_request_parameters_spec. cbn [outcome snd].
  split; [reflexivity|]. unfold request_params.
  pose proof (successful_pairs_allowed W
                (normalize (SearchOptions.filter options))) as Hall.
  set (pairs := successful_pairs W (normalize (SearchOptions.filter options)))
    in *.
  assert (Hdom : dom (fold_pairs (base_params query options) pairs) =
                 base_keys ∪ fields pairs).
  { rewrite dom_fold_pairs. f_equal. }
  assert (Hbase : forall k,
            k ∉ QUERY_PARAMETERS ->
            fold_pairs (base_params query options) pairs !! k =
            base_params query options !! k).
  { intros k Hk. rewrite fold_pairs_lookup, last_value_absent; [reflexivity|].
    eapply Forall_impl; [exact Hall|].
    intros p Hp Heq. apply Hk. rewrite <- Heq. exact Hp. }
  split; [exact Hdom|]. split.
  - rewrite Hdom. apply union_mono_l. unfold fields.
    intros k Hk. apply elem_of_list_to_set in Hk.
    apply list_elem_of_fmap in Hk as (p & -> & Hp).
    apply elem_of_list_to_set.
    rewrite Forall_forall in Hall. exact (Hall p Hp).
  - split; [|split]; rewrite Hbase; try reflexivity;
      intros Hin%list_elem_of_In; cbn in Hin; intuition discriminate.
Qed.

(* --------------------------------------------------------------------- *)
(* The forms of the filter argument                                       *)
(* --------------------------------------------------------------------- *)

(** X8: a single filter that is a callable or a non-empty string is
    treated exactly as the one-element list holding it.  A single empty
    string is treated as no filter at all: it is not handed to the parser
    and no warning is logged, whereas inside a list it is parsed like any
    other expression. *)
Theorem single_filter_is_a_one_element_list (W : World)
    (query : option string) (skip top : Z) (include_total_count : bool) :
  (forall f,
     filter_falsy (FilterOne f) = false ->
     _build_request_parameters W query
       (SearchOptions.Build (FilterOne f) skip top include_total_count) =
     _build_request_parameters W query
       (SearchOptions.Build (FilterList [f]) skip top include_total_count)) /\
  _build_request_parameters W query
    (SearchOptions.Build (FilterOne (FStr "")) skip top include_total_count) =
  _build_request_parameters W query
    (SearchOptions.Build FilterNone skip top include_total_count) /\
  trace (_build_request_parameters W query
           (SearchOptions.Build (FilterOne (FStr "")) skip top
              include_total_count)) = [] /\
  filter (fun ev => is_parse ev = true)
    (trace (_build_request_parameters W query
              (SearchOptions.Build (FilterList [FStr ""]) skip top
                 include_total_count))) = [EvParseFilter (FStr "")].
Proof.
  split; [|split; [|split]].
  - intros f Hf. unfold _build_request_parameters.
    cbn [SearchOptions.filter]. rewrite Hf. reflexivity.
  - reflexivity.
  - reflexivity.
  - rewrite _build_request_parameters_spec. cbn [trace fst].
    apply filter_events_parse.
Qed.

Lemma single_filter_is_a_one_element_list_witness :
  _build_request_parameters Sample.world (Some "cats")
    (SearchOptions.Build (FilterOne (FCallable (Callable "by_units")))
       0 5 false) =
  _build_request_parameters Sample.world (Some "cats")
    (SearchOptions.Build (FilterList [FCallable (Callable "by_units")])
       0 5 false).
Proof.
  exact (proj1 (single_filter_is_a_one_element_list Sample.world (Some "cats")
                  0 5 false)
           (FCallable (Callable "by_units")) eq_refl).
Defined.

(** X10: a callable filter is parsed as the stripped text of its source
    would be, a string filter is handed to the parser as it is, unstripped;
    when the source of a callable cannot be read, the expression contributes
    nothing and the warning reports that exception. *)
Theorem callable_filter_is_its_stripped_source (W : World) (c : callable) :
  (forall src,
     getsource W c = Ok src ->
     outcome (_parse_filter_lambda W (FCallable c)) =
     outcome (_parse_filter_lambda W (FStr (strip src)))) /\
  (forall s,
     outcome (_parse_filter_lambda W (FStr s)) =
     match ast_parse W s with
     | Ok node => visit QUERY_PARAMETERS node
     | Raise e => Raise e
     end) /\
  (forall e query skip top include_total_count,
     getsource W c = Raise e ->
     _build_request_parameters W query
       (SearchOptions.Build (FilterOne (FCallable c)) skip top
          include_total_count) =
     ([EvParseFilter (FCallable c);
       EvLog WARNING (FailedToParseFilter (FCallable c) e)],
      Ok (base_params query
            (SearchOptions.Build (FilterOne (FCallable c)) skip top
               include_total_count)))).
Proof.
  split; [|split].
  - intros src Hsrc. unfold _parse_filter_lambda.
    rewrite !outcome_bind. cbn [emit lift outcome snd]. rewrite Hsrc.
    reflexivity.
  - intros s. unfold _parse_filter_lambda.
    rewrite !outcome_bind. cbn [emit lift outcome snd].
    destruct (ast_parse W s); reflexivity.
  - intros e query skip top itc He.
    assert (Hp : outcome (_parse_filter_lambda W (FCallable c)) = Raise e).
    { unfold _parse_filter_lambda. rewrite !outcome_bind.
      cbn [emit lift outcome snd]. rewrite He. reflexivity. }
    rewrite _build_request_parameters_spec.
    unfold request_params, normalize, successful_pairs, parsed_pairs,
      filter_events.
    cbn [SearchOptions.filter filter_falsy as_list map concat].
    rewrite Hp. reflexivity.
Qed.

Lemma callable_filter_is_its_stripped_source_witness :
  outcome (_parse_filter_lambda Sample.world
             (FCallable (Callable "by_units"))) =
  outcome (_parse_filter_lambda Sample.world (FStr "lambda x: x.units == 5"))
  /\
  trace (_build_request_parameters Sample.world (Some "cats")
           (SearchOptions.Build (FilterOne (FCallable (Callable "unknown")))
              0 5 false)) =
  [EvParseFilter (FCallable (Callable "unknown"));
   EvLog WARNING
     (FailedToParseFilter (FCallable (Callable "unknown"))
        (MkException (OtherException "OSError")
           "could not get source code" None))].
Proof.
  pose proof (callable_filter_is_its_stripped_source Sample.world
                (Callable "by_units")) as (Hsrc & _ & _).
  pose proof (callable_filter_is_its_stripped_source Sample.world
                (Callable "unknown")) as (_ & _ & Hraise).
  split.
  - exact (Hsrc _ eq_refl).
  - rewrite (Hraise _ (Some "cats") 0 5 false eq_refl). reflexivity.
Defined.

(* --------------------------------------------------------------------- *)
(* What does not reach the request                                        *)
(* --------------------------------------------------------------------- *)

Lemma _inner_search_ignores_count_flag (W : World) (self : BraveSearch)
    (query : option string) (filter : filter_input) (skip top : Z)
    (b1 b2 : bool) :
  _inner_search W self query (SearchOptions.Build filter skip top b1) =
  _inner_search W self query (SearchOptions.Build filter skip top b2).
Proof. reflexivity. Qed.

(** X11: neither the output type nor the total-count flag reaches the
    request: two calls that differ only in them leave the same trace, fail
    with the same error, and when they succeed return the same metadata and
    result sequences of the same length. *)
Theorem output_type_and_count_flag_do_not_reach_the_request
    (W : World) (self : BraveSearch) (query : option string)
    (filter : filter_input) (skip top : Z)
    (output_type1 output_type2 : output_type_t) (flag1 flag2 : bool) :
  let call1 := search W self query output_type1 filter skip top flag1 in
  let call2 := search W self query output_type2 filter skip top flag2 in
  trace call1 = trace call2 /\
  (forall e, outcome call1 = Raise e <-> outcome call2 = Raise e) /\
  (forall k1 k2,
     outcome call1 = Ok k1 ->
     outcome call2 = Ok k2 ->
     KernelSearchResults.metadata k1 = KernelSearchResults.metadata k2 /\
     result_seq_length (KernelSearchResults.results k1) =
     result_seq_length (KernelSearchResults.results k2)).
Proof.
  cbn zeta. split; [|split].
  - rewrite !search_trace.
    rewrite (_inner_search_ignores_count_flag W self query filter skip top
               flag1 flag2).
    reflexivity.
  - intros e. rewrite !search_outcome. cbn zeta.
    rewrite (_inner_search_ignores_count_flag W self query filter skip top
               flag1 flag2).
    destruct (outcome (_inner_search _ _ _ _)); split; congruence.
  - intros k1 k2. rewrite !search_outcome. cbn zeta.
    rewrite (_inner_search_ignores_count_flag W self query filter skip top
               flag1 flag2).
    destruct (outcome (_inner_search _ _ _ _)) as [r|]; [|discriminate].
    intros [= <-] [= <-].
    cbn [KernelSearchResults.metadata KernelSearchResults.results].
    rewrite !select_results_length. split; reflexivity.
Qed.

Lemma output_type_and_count_flag_do_not_reach_the_request_witness :
  KernelSearchResults.metadata
    (KernelSearchResults.Build (Strings [PyStr "About cats"; PyStr ""])
       (Some 2) (_get_metadata Sample.two_pages)) =
  KernelSearchResults.metadata
    (KernelSearchResults.Build
       (WebPages [Sample.page (Some "Cats") (Some "About cats");
                  Sample.page (Some "Dogs") None])
       None (_get_metadata Sample.two_pages)).
Proof.
  exact (proj1 (proj2 (proj2
           (output_type_and_count_flag_do_not_reach_the_request Sample.world
              Sample.connector (Some "cats") FilterNone 0 5 TyStr LitAny
              true false)) _ _ eq_refl eq_refl)).
Defined.

(* --------------------------------------------------------------------- *)
(* Construction                                                           *)
(* --------------------------------------------------------------------- *)

(** X12: the constructor succeeds exactly when the settings load, and the
    connector then holds those settings, so that the key they carry is the
    X-Subscription-Token of every request; a ValidationError of the loader is
    raised again as ServiceInitializationError with the original as cause,
    and any other exception of the loader is passed on unchanged. *)
Theorem constructor_wraps_validation_errors_only (load : settings_loader)
    (key path encoding : option string) :
  (forall s,
     load key path encoding = Ok s ->
     exists self,
       __init__ load key path encoding = Ok self /\
       settings self = s /\
       forall W, headers W self !! "X-Subscription-Token" =
                 Some (get_secret_value (api_key s))) /\
  (forall ex,
     load key path encoding = Raise ex ->
     is_ValidationError ex = true ->
     __init__ load key path encoding =
     Raise (MkException ServiceInitializationError
              "Failed to create Brave settings." (Some ex))) /\
  (forall ex,
     load key path encoding = Raise ex ->
     is_ValidationError ex = false ->
     __init__ load key path encoding = Raise ex) /\
  (forall self,
     __init__ load key path encoding = Ok self ->
     load key path encoding = Ok (settings self)).
Proof.
  unfold __init__. split; [|split; [|split]].
  - intros s ->. eexists. split; [reflexivity|]. split; reflexivity.
  - intros ex -> ->. reflexivity.
  - intros ex -> ->. reflexivity.
  - intros self.
    destruct (load key path encoding) as [s|ex].
    + intros [= <-]. reflexivity.
    + destruct (is_ValidationError ex); discriminate.
Qed.

Lemma constructor_wraps_validation_errors_only_witness :
  (exists self,
     __init__ SampleInit.from_argument (Some "secret") None None = Ok self /\
     headers Sample.world self !! "X-Subscription-Token" = Some "secret") /\
  __init__ SampleInit.from_argument None None None =
    Raise (MkException ServiceInitializationError
             "Failed to create Brave settings."
             (Some SampleInit.missing_key)) /\
  __init__ SampleInit.unreadable None (Some ".env") None =
    Raise (MkException (OtherException "OSError") "permission denied" None).
Proof.
  split; [|split].
  - destruct (proj1 (constructor_wraps_validation_errors_only
                       SampleInit.from_argument (Some "secret") None None)
                _ eq_refl) as (self & Hinit & _ & Hkey).
    exists self. split; [exact Hinit|apply Hkey].
  - exact (proj1 (proj2 (constructor_wraps_validation_errors_only
                           SampleInit.from_argument None None None))
             _ eq_refl eq_refl).
  - exact (proj1 (proj2 (proj2 (constructor_wraps_validation_errors_only
                                  SampleInit.unreadable None (Some ".env")
                                  None)))
             _ eq_refl eq_refl).
Defined.

(* --------------------------------------------------------------------- *)
(* Repeated filters                                                       *)
(* --------------------------------------------------------------------- *)

Lemma last_value_twice (field : string) (pairs : list (string * string)) :
  last_value field (pairs ++ pairs) = last_value field pairs.
Proof.
  unfold last_value. rewrite filter_app, last_app.
  destruct (last (filter (fun p => p.1 = field) pairs)); reflexivity.
Qed.

(** X13: giving every filter expression twice changes nothing in the
    request: the parameters built from a list followed by itself are those
    built from the list. *)
Theorem repeated_filters_change_nothing (W : World) (query : option string)
    (fs : list filter_expr) (skip top : Z) (include_total_count : bool) :
  outcome (_build_request_parameters W query
             (SearchOptions.Build (FilterList (fs ++ fs)) skip top
                include_total_count)) =
  outcome (_build_request_parameters W query
             (SearchOptions.Build (FilterList fs) skip top
                include_total_count)).
Proof.
  rewrite !_build_request_parameters_spec. cbn [outcome snd]. f_equal.
  unfold request_params. cbn [SearchOptions.filter].
  assert (Hn : forall l, normalize (FilterList l) = l)
    by (intros l; unfold normalize; destruct l; reflexivity).
  rewrite !Hn, successful_pairs_app.
  apply map_eq. intros k. rewrite !fold_pairs_lookup, last_value_twice.
  reflexivity.
Qed.
